(** * The instance resolver of the DigitalOcean cloud controller manager

    A shallow embedding of [do/droplets.go] (package [do]) and the properties
    of its lookup and translation operations.

    The package is glue around two collaborators: the godo client
    ([Droplets.Get], [Droplets.List]) and the metadata endpoint reached through
    [net/http].  Their calls are the only effects of the package; they are
    modelled as requests of a small free monad [Prog], so that a program is a
    finite tree whose nodes are exactly the calls it makes, in order.  A
    handler gives the collaborators a behaviour and [run] executes a program
    against it, returning the outcome, the final state of the outside world
    and the sequence of calls made. *)

From Stdlib Require Import ZArith String List Bool Ascii DecimalString DecimalPos Lia.
From Stdlib.Strings Require Import Byte.
Import ListNotations.

Set Implicit Arguments.
Local Open Scope string_scope.
Local Open Scope list_scope.
Local Open Scope Z_scope.

(* ===================================================================== *)
(** ** Go values used by the package *)
(* ===================================================================== *)

(** Go's [error] interface values, as far as this package builds or compares
    them.  A package-level error variable (such as
    [cloudprovider.InstanceNotFound]) is a value with an identity of its own:
    [pkgError] keeps the qualified name of the variable, so that it stays
    distinguishable from an [errors.New] of the same text made elsewhere.
    [fmt.Errorf] keeps the format and its operands instead of the rendered
    text. *)
Inductive error : Type :=
| errorString (s : string)
| pkgError (qualified : string) (s : string)
| NumError (Func Num : string) (Err : error)
| wrapError (format : string) (a : list operand)
with operand : Type :=
| err_operand (e : option error)
| int_operand (n : Z).

(** Go's [int] on the 64-bit platforms the controller is built for. *)
Definition intSize : Z := 64.
Definition maxUint64 : Z := 2 ^ 64 - 1.

Module errors.
Definition New (text : string) : error := errorString text.
End errors.

Module fmt.
Definition Errorf (format : string) (a : list operand) : error :=
  wrapError format a.
End fmt.

(** [strconv]: the two conversions the package calls, after the Go standard
    library.  Only base 10 and the platform's [int] are needed. *)
Module strconv.

Definition ErrRange : error := pkgError "strconv.ErrRange" "value out of range".
Definition ErrSyntax : error := pkgError "strconv.ErrSyntax" "invalid syntax".

Definition syntaxError (fn str : string) : error := NumError fn str ErrSyntax.
Definition rangeError (fn str : string) : error := NumError fn str ErrRange.

Definition fnAtoi : string := "Atoi".

(** The digit of a byte: [c - '0'] when ['0' <= c <= '9']. *)
Definition digit (c : ascii) : option Z :=
  let n := Z.of_N (N_of_ascii c) in
  if (48 <=? n) && (n <=? 57) then Some (n - 48) else None.

(** The loop of [ParseUint(s, 10, 64)] over the bytes of [s], from the
    accumulator [n]: a byte that is no decimal digit is a syntax error, an
    accumulator that leaves uint64 a range error (with [maxVal]). *)
Fixpoint ParseUint_loop (fn s0 s : string) (n : Z) : Z * option error :=
  match s with
  | EmptyString => (n, None)
  | String c rest =>
      match digit c with
      | None => (0, Some (syntaxError fn s0))
      | Some d =>
          let cutoff := maxUint64 / 10 + 1 in
          if cutoff <=? n then (maxUint64, Some (rangeError fn s0))
          else
            let n10 := (n * 10) mod 2 ^ 64 in
            let n1 := (n10 + d) mod 2 ^ 64 in
            if (n1 <? n10) || (maxUint64 <? n1)
            then (maxUint64, Some (rangeError fn s0))
            else ParseUint_loop fn s0 rest n1
      end
  end.

Definition ParseUint (fn s0 s : string) : Z * option error :=
  match s with
  | EmptyString => (0, Some (syntaxError fn s0))
  | _ => ParseUint_loop fn s0 s 0
  end.

Definition is_ErrRange (e : error) : bool :=
  match e with
  | NumError _ _ (pkgError q _) => String.eqb q "strconv.ErrRange"
  | _ => false
  end.

(** [ParseInt(s, 10, 0)], reporting its errors under the name [fn]. *)
Definition ParseInt (fn s : string) : Z * option error :=
  match s with
  | EmptyString => (0, Some (syntaxError fn s))
  | String c rest =>
      let s0 := s in
      let neg := Ascii.eqb c "-" in
      let s := if Ascii.eqb c "+" || Ascii.eqb c "-" then rest else s in
      let '(un, err) := ParseUint fn s0 s in
      match err with
      | Some e =>
          if negb (is_ErrRange e) then (0, err)
          else if neg then (- 2 ^ (intSize - 1), Some (rangeError fn s0))
          else (2 ^ (intSize - 1) - 1, Some (rangeError fn s0))
      | None =>
          let cutoff := 2 ^ (intSize - 1) in
          if negb neg && (cutoff <=? un)
          then (cutoff - 1, Some (rangeError fn s0))
          else if neg && (cutoff <? un)
          then (- cutoff, Some (rangeError fn s0))
          else (if neg then - un else un, None)
      end
  end.

(** [Atoi(s)] is [ParseInt(s, 10, 0)] converted to [int], its error
    reported under the name Atoi. *)
Definition Atoi (s : string) : Z * option error := ParseInt fnAtoi s.

(** [Itoa(i)] is [FormatInt(int64(i), 10)]: the decimal digits of [i],
    after a minus sign when [i] is negative. *)
Definition Itoa (i : Z) : string := NilZero.string_of_int (Z.to_int i).

End strconv.

Module context.
Inductive Context : Type := TODO.
End context.

Module types.
(** [type NodeName string] *)
Definition NodeName : Type := string.
End types.

Module http.
Definition StatusOK : Z := 200.

(** The body of a response is a stream to be read and closed; it is
    identified by a handle. *)
Inductive ReadCloser : Type := body (handle : nat).

Record Response : Type := { StatusCode : Z; Body : ReadCloser }.
End http.

Module cloudprovider.
Definition InstanceNotFound : error :=
  pkgError "cloudprovider.InstanceNotFound" "instance not found".
End cloudprovider.

Module v1.
(** [type NodeAddressType string] and the three constants used. *)
Definition NodeAddressType : Type := string.
Definition NodeHostName : NodeAddressType := "Hostname".
Definition NodeExternalIP : NodeAddressType := "ExternalIP".
Definition NodeInternalIP : NodeAddressType := "InternalIP".

Record NodeAddress : Type := { Type_ : NodeAddressType; Address : string }.
End v1.

(** [godo]: the records of the client library that the package reads.  A
    droplet has more fields than these; the package reads no other. *)
Module godo.

Record NetworkV4 : Type := { IPAddress : string; Type_ : string }.

Record Networks : Type := { V4 : list NetworkV4 }.

Record Droplet : Type := {
  ID : Z;
  Name : string;
  SizeSlug : string;
  Networks_ : option Networks   (* a pointer, nil when absent *)
}.

(** [godo.Response] embeds a pointer to the HTTP response of the call; the
    package reads its status code only.  The record stands for a response
    whose HTTP response is present, so that the status code can be read; a
    response without one is not represented, and nothing below speaks of
    it. *)
Record Response : Type := { StatusCode : Z }.

Record ListOptions : Type := { Page : Z; PerPage : Z }.

Definition errNoNetworks : error :=
  pkgError "godo.errNoNetworks" "no networks have been defined".

(** Modelled from the spec: the search behind the two address accessors of
    the godo library, which is not part of the package's sources.  The data
    model gives a record a list of network interfaces, each tagged public or
    private with an IPv4 address: the address looked for is that of the
    first interface carrying the tag, the empty string when there is
    none. *)
Fixpoint firstV4 (kind : string) (v4s : list NetworkV4) : string :=
  match v4s with
  | [] => ""
  | v4 :: rest =>
      if String.eqb (Type_ v4) kind then IPAddress v4 else firstV4 kind rest
  end.

(** Modelled from the spec: godo's accessor [Droplet.PublicIPv4], missing
    from the sources.  It returns the address of the first interface tagged
    public, the empty string when there is none, and an error when the
    record has no network information at all. *)
Definition PublicIPv4 (d : Droplet) : string * option error :=
  match Networks_ d with
  | None => ("", Some errNoNetworks)
  | Some n => (firstV4 "public" (V4 n), None)
  end.

(** Modelled from the spec: godo's accessor [Droplet.PrivateIPv4], missing
    from the sources; as [PublicIPv4], for the interfaces tagged private. *)
Definition PrivateIPv4 (d : Droplet) : string * option error :=
  match Networks_ d with
  | None => ("", Some errNoNetworks)
  | Some n => (firstV4 "private" (V4 n), None)
  end.

End godo.

(* ===================================================================== *)
(** ** Programs: the calls to the outside world *)
(* ===================================================================== *)

(** The calls that leave the package: the two operations of the godo client
    held by the receiver ([i.client.Droplets]) and the HTTP exchange with the
    metadata endpoint. *)
Inductive Request : Type :=
| Droplets_Get (ctx : context.Context) (dropletID : Z)
| Droplets_List (ctx : context.Context) (opt : godo.ListOptions)
| http_Get (url : string)
| ioutil_ReadAll (r : http.ReadCloser)
| Body_Close (r : http.ReadCloser).

(** What each call returns, as Go returns it: pointers are options, a slice
    is a list, an error is nil or a value. *)
Definition Reply (r : Request) : Type :=
  match r with
  | Droplets_Get _ _ => option godo.Droplet * option godo.Response * option error
  | Droplets_List _ _ => list godo.Droplet * option godo.Response * option error
  | http_Get _ => option http.Response * option error
  | ioutil_ReadAll _ => list byte * option error
  | Body_Close _ => option error
  end.

(** A program returns, panics (the Go runtime stops it), or makes a call and
    continues with the reply. *)
Inductive Prog (A : Type) : Type :=
| Ret (a : A)
| Panic (msg : string)
| Vis (r : Request) (k : Reply r -> Prog A).

Arguments Panic {A} msg.

Fixpoint bind {A B : Type} (p : Prog A) (f : A -> Prog B) : Prog B :=
  match p with
  | Ret a => f a
  | Panic msg => Panic msg
  | Vis r k => Vis r (fun x => bind (k x) f)
  end.

Definition call (r : Request) : Prog (Reply r) := Vis r (fun x => Ret x).

Declare Scope prog_scope.
Delimit Scope prog_scope with prog.
Notation "x <- c1 ;; c2" := (bind c1 (fun x => c2))
  (at level 61, c1 at next level, right associativity) : prog_scope.
Notation "' pat <- c1 ;; c2" :=
  (bind c1 (fun x => match x with pat => c2 end))
  (at level 61, pat pattern, c1 at next level, right associativity) : prog_scope.
Local Open Scope prog_scope.

(** Reading through a pointer: a nil pointer stops the program. *)
Definition deref {A : Type} (p : option A) : Prog A :=
  match p with
  | Some a => Ret a
  | None => Panic "invalid memory address or nil pointer dereference"
  end.

(** [defer d]: the deferred call [d] runs when the rest of the function, [p],
    is done, whether it returns or panics. *)
Fixpoint defer {A B : Type} (d : Prog B) (p : Prog A) : Prog A :=
  match p with
  | Ret a => _ <- d ;; Ret a
  | Panic msg => _ <- d ;; Panic msg
  | Vis r k => Vis r (fun x => defer d (k x))
  end.

(* ===================================================================== *)
(** ** Package do: droplets.go *)
(* ===================================================================== *)

(** The receiver [i *instances] has one field, the client; its two
    operations are the requests [Droplets_Get] and [Droplets_List], so the
    methods below take no receiver.  A Go function returning [(x, err)]
    returns the pair; a nil slice is the empty list. *)

Definition dropletIDMetadataURL : string := "http://169.254.169.254/metadata/v1/id".

(** [httpGet]: an HTTP GET on [url], returning the response body as a
    string. *)
Definition httpGet (url : string) : Prog (string * option error) :=
  '(resp, err) <- call (http_Get url) ;;
  match err with
  | Some _ => Ret ("", err)
  | None =>
      resp <- deref resp ;;
      defer (call (Body_Close (http.Body resp)))
        (if negb (http.StatusCode resp =? http.StatusOK)
         then Ret ("", Some (fmt.Errorf "droplet metadata returned non-200 status code: %d"
                               [int_operand (http.StatusCode resp)]))
         else
           '(bodyBytes, err) <- call (ioutil_ReadAll (http.Body resp)) ;;
           match err with
           | Some _ => Ret ("", err)
           | None => Ret (string_of_list_byte bodyBytes, None)
           end)
  end.

(** [dropletID]: the id of the running droplet, from the metadata service. *)
Definition dropletID : Prog (string * option error) :=
  httpGet dropletIDMetadataURL.

(** [dropletById]: the droplet with the provided id. *)
Definition dropletById (ctx : context.Context) (id : string)
  : Prog (option godo.Droplet * option error) :=
  let '(intId, err) := strconv.Atoi id in
  match err with
  | Some _ =>
      Ret (None, Some (fmt.Errorf "error converting droplet id to string: %v"
                         [err_operand err]))
  | None =>
      '(droplet, resp, err) <- call (Droplets_Get ctx intId) ;;
      match err with
      | Some _ => Ret (None, err)
      | None =>
          resp <- deref resp ;;
          if negb (godo.StatusCode resp =? http.StatusOK)
          then Ret (None, Some (fmt.Errorf "DO API returned non-200 status code: %d"
                                  [int_operand (godo.StatusCode resp)]))
          else Ret (droplet, None)
      end
  end.

(** The loop of [dropletByName] over the listed droplets: it leaves at the
    first droplet whose name is the node name. *)
Fixpoint range_droplets (droplets : list godo.Droplet) (nodeName : types.NodeName)
  : option godo.Droplet :=
  match droplets with
  | [] => None
  | droplet :: rest =>
      if String.eqb (godo.Name droplet) nodeName then Some droplet
      else range_droplets rest nodeName
  end.

(** [dropletByName]: lists all droplets and returns the first one that
    matches the node name. *)
Definition dropletByName (ctx : context.Context) (nodeName : types.NodeName)
  : Prog (option godo.Droplet * option error) :=
  '(droplets, resp, err) <-
     call (Droplets_List ctx {| godo.Page := 0; godo.PerPage := 0 |}) ;;
  match err with
  | Some _ => Ret (None, err)
  | None =>
      resp <- deref resp ;;
      if negb (godo.StatusCode resp =? http.StatusOK)
      then Ret (None, Some (fmt.Errorf "DO API returned non-200 status code: %d"
                              [int_operand (godo.StatusCode resp)]))
      else
        match range_droplets droplets nodeName with
        | Some droplet => Ret (Some droplet, None)
        | None => Ret (None, Some cloudprovider.InstanceNotFound)
        end
  end.

(** [NodeAddressesByProviderID]: the addresses of the node with the given
    provider id: its name, its private and its public IPv4. *)
Definition NodeAddressesByProviderID (providerId : string)
  : Prog (list v1.NodeAddress * option error) :=
  '(droplet, err) <- dropletById context.TODO providerId ;;
  match err with
  | Some _ => Ret ([], err)
  | None =>
      droplet <- deref droplet ;;
      let addresses : list v1.NodeAddress := [] in
      let addresses :=
        addresses ++ [ {| v1.Type_ := v1.NodeHostName;
                          v1.Address := godo.Name droplet |} ] in
      let '(privateIP, err) := godo.PrivateIPv4 droplet in
      if match err with Some _ => true | None => false end
         || String.eqb privateIP ""
      then Ret ([], Some (fmt.Errorf "could not get private ip: %v" [err_operand err]))
      else
        let addresses :=
          addresses ++ [ {| v1.Type_ := v1.NodeInternalIP;
                            v1.Address := privateIP |} ] in
        let '(publicIP, err) := godo.PublicIPv4 droplet in
        if match err with Some _ => true | None => false end
           || String.eqb publicIP ""
        then Ret ([], Some (fmt.Errorf "could not get public ip: %v" [err_operand err]))
        else
          let addresses :=
            addresses ++ [ {| v1.Type_ := v1.NodeExternalIP;
                              v1.Address := publicIP |} ] in
          Ret (addresses, None)
  end.

(** [NodeAddresses]: the addresses of the calling instance, whatever the
    name passed. *)
Definition NodeAddresses (name : types.NodeName)
  : Prog (list v1.NodeAddress * option error) :=
  '(selfDropletID, err) <- dropletID ;;
  match err with
  | Some _ => Ret ([], err)
  | None => NodeAddressesByProviderID selfDropletID
  end.

(** [InstanceID]: the provider id of the node with the given name. *)
Definition InstanceID (nodeName : types.NodeName) : Prog (string * option error) :=
  '(droplet, err) <- dropletByName context.TODO nodeName ;;
  match err with
  | Some _ => Ret ("", err)
  | None =>
      droplet <- deref droplet ;;
      Ret (strconv.Itoa (godo.ID droplet), None)
  end.

(** [ExternalID] returns what [InstanceID] returns. *)
Definition ExternalID (nodeName : types.NodeName) : Prog (string * option error) :=
  InstanceID nodeName.

(** [InstanceType]: the size slug of the node with the given name. *)
Definition InstanceType (name : types.NodeName) : Prog (string * option error) :=
  '(droplet, err) <- dropletByName context.TODO name ;;
  match err with
  | Some _ => Ret ("", err)
  | None =>
      droplet <- deref droplet ;;
      Ret (godo.SizeSlug droplet, None)
  end.

(** [InstanceTypeByProviderID]: the size slug of the node with the given
    provider id. *)
Definition InstanceTypeByProviderID (providerId : string)
  : Prog (string * option error) :=
  '(droplet, err) <- dropletById context.TODO providerId ;;
  match err with
  | Some _ => Ret ("", err)
  | None =>
      droplet <- deref droplet ;;
      Ret (godo.SizeSlug droplet, err)
  end.

(** [AddSSHKeyToAllInstances]: not implemented. *)
Definition AddSSHKeyToAllInstances (user : string) (keyData : list byte)
  : Prog (option error) :=
  Ret (Some (errors.New "not implemented yet")).

(** [CurrentNodeName]: the hostname, converted to a node name. *)
Definition CurrentNodeName (hostname : string) : Prog (types.NodeName * option error) :=
  Ret (hostname, None).

(* ===================================================================== *)
(** ** Running a program against the outside world *)
(* ===================================================================== *)

(** A behaviour of the collaborators: from a state [W] of the outside world,
    every call gets a reply and leaves a new state.  Nothing is assumed of
    it: replies may change from call to call. *)
Definition Handler (W : Type) : Type := forall r : Request, W -> Reply r * W.

Inductive Outcome (A : Type) : Type :=
| Returned (a : A)
| Panicked (msg : string).

Arguments Panicked {A} msg.

(** [run h p w]: the outcome of [p] from the state [w], the state left and
    the calls made, in order. *)
Fixpoint run {W A : Type} (h : Handler W) (p : Prog A) (w : W)
  : Outcome A * W * list Request :=
  match p with
  | Ret a => (Returned a, w, [])
  | Panic msg => (Panicked msg, w, [])
  | Vis r k =>
      let '(x, w1) := h r w in
      let '(o, w2, t) := run h (k x) w1 in
      (o, w2, r :: t)
  end.

(** *** The error kinds of the specification

    The package has no error types of its own: apart from the one variable
    [cloudprovider.InstanceNotFound], a kind of failure is known by the
    return statement that builds the error.  The recognisers below name
    these return statements. *)

(** The error built by [dropletById] when [strconv.Atoi] fails. *)
Definition InvalidID (e : error) : bool :=
  match e with
  | wrapError f [err_operand (Some _)] =>
      String.eqb f "error converting droplet id to string: %v"
  | _ => false
  end.

(** The errors built by [NodeAddressesByProviderID] for a missing private or
    public address. *)
Definition MissingAddress (e : error) : bool :=
  match e with
  | wrapError f [err_operand _] =>
      String.eqb f "could not get private ip: %v"
      || String.eqb f "could not get public ip: %v"
  | _ => false
  end.

(** The error built by [AddSSHKeyToAllInstances]. *)
Definition NotImplemented (e : error) : bool :=
  match e with
  | errorString s => String.eqb s "not implemented yet"
  | _ => false
  end.

(** A droplet on which both address accessors succeed with a non-empty
    address. *)
Definition has_addresses (d : godo.Droplet) : bool :=
  match godo.PrivateIPv4 d, godo.PublicIPv4 d with
  | (privateIP, None), (publicIP, None) =>
      negb (String.eqb privateIP "") && negb (String.eqb publicIP "")
  | _, _ => false
  end.

(** *** A scripted outside world, for concrete runs

    A cloud holding a fixed list of droplets behind a well-behaved client,
    and a metadata endpoint serving a fixed body. *)
Record Cloud : Type := {
  cloud_droplets : list godo.Droplet;
  metadata_status : Z;
  metadata_body : list byte
}.

Definition cloud : Handler Cloud :=
  fun r w =>
    match r as r0 return Reply r0 * Cloud with
    | Droplets_Get _ id =>
        match find (fun d => godo.ID d =? id) (cloud_droplets w) with
        | Some d => ((Some d, Some {| godo.StatusCode := 200 |}, None), w)
        | None => ((None, Some {| godo.StatusCode := 404 |}, None), w)
        end
    | Droplets_List _ _ =>
        ((cloud_droplets w, Some {| godo.StatusCode := 200 |}, None), w)
    | http_Get _ =>
        ((Some {| http.StatusCode := metadata_status w; http.Body := http.body 0 |},
          None), w)
    | ioutil_ReadAll _ => ((metadata_body w, None), w)
    | Body_Close _ => (None, w)
    end.

Definition v4 (kind address : string) : godo.NetworkV4 :=
  {| godo.IPAddress := address; godo.Type_ := kind |}.

Definition node_a : godo.Droplet :=
  {| godo.ID := 42; godo.Name := "node-a"; godo.SizeSlug := "2gb";
     godo.Networks_ :=
       Some {| godo.V4 := [v4 "private" "10.0.0.5"; v4 "public" "203.0.113.9"] |} |}.

(** A second droplet of the same name, listed after [node_a]. *)
Definition node_a' : godo.Droplet :=
  {| godo.ID := 77; godo.Name := "node-a"; godo.SizeSlug := "4gb";
     godo.Networks_ :=
       Some {| godo.V4 := [v4 "private" "10.0.0.6"; v4 "public" "203.0.113.10"] |} |}.

(** A droplet with a private interface only. *)
Definition node_b : godo.Droplet :=
  {| godo.ID := 43; godo.Name := "node-b"; godo.SizeSlug := "512mb";
     godo.Networks_ := Some {| godo.V4 := [v4 "private" "10.0.0.7"] |} |}.

(** A droplet without network information. *)
Definition node_c : godo.Droplet :=
  {| godo.ID := 44; godo.Name := "Node-A"; godo.SizeSlug := "1gb";
     godo.Networks_ := None |}.

Definition fleet : Cloud :=
  {| cloud_droplets := [node_c; node_b; node_a; node_a'];
     metadata_status := 200;
     metadata_body := ["4"%byte; "2"%byte] |}.

Definition empty_cloud : Cloud :=
  {| cloud_droplets := []; metadata_status := 200; metadata_body := [] |}.

(** The addresses [NodeAddressesByProviderID] builds from the droplet its
    lookup returned: the part of the function after the lookup, which makes
    no call. *)
Definition addresses_of (droplet : godo.Droplet) : list v1.NodeAddress * option error :=
  let '(privateIP, err) := godo.PrivateIPv4 droplet in
  if match err with Some _ => true | None => false end || String.eqb privateIP ""
  then ([], Some (fmt.Errorf "could not get private ip: %v" [err_operand err]))
  else
    let '(publicIP, err') := godo.PublicIPv4 droplet in
    if match err' with Some _ => true | None => false end || String.eqb publicIP ""
    then ([], Some (fmt.Errorf "could not get public ip: %v" [err_operand err']))
    else
      ([ {| v1.Type_ := v1.NodeHostName; v1.Address := godo.Name droplet |};
         {| v1.Type_ := v1.NodeInternalIP; v1.Address := privateIP |};
         {| v1.Type_ := v1.NodeExternalIP; v1.Address := publicIP |} ], None).

(** *** The strings strconv.Atoi accepts

    Decimal notation, to say in closed form which strings [strconv.Atoi]
    converts and to what. *)

Fixpoint all_digits (s : string) : bool :=
  match s with
  | EmptyString => true
  | String c rest =>
      match strconv.digit c with
      | Some _ => all_digits rest
      | None => false
      end
  end.

(** The number written by the digits of [s] after the digits already read
    as [n]. *)
Fixpoint digits_value (s : string) (n : Z) : Z :=
  match s with
  | EmptyString => n
  | String c rest =>
      digits_value rest (n * 10 + match strconv.digit c with Some d => d | None => 0 end)
  end.

(** An optional sign, then at least one decimal digit. *)
Definition integer_syntax (s : string) : bool :=
  match s with
  | EmptyString => false
  | String c rest =>
      if Ascii.eqb c "+" || Ascii.eqb c "-"
      then negb (String.eqb rest "") && all_digits rest
      else all_digits s
  end.

Definition integer_value (s : string) : Z :=
  match s with
  | EmptyString => 0
  | String c rest =>
      if Ascii.eqb c "-" then - digits_value rest 0
      else if Ascii.eqb c "+" then digits_value rest 0
      else digits_value s 0
  end.

Definition minInt : Z := - 2 ^ (intSize - 1).
Definition maxInt : Z := 2 ^ (intSize - 1) - 1.

(** *** Reading call traces *)

(** The one request the lookups by name make. *)
Definition list_all : Request :=
  Droplets_List context.TODO {| godo.Page := 0; godo.PerPage := 0 |}.

Definition is_client_call (r : Request) : bool :=
  match r with
  | Droplets_Get _ _ | Droplets_List _ _ => true
  | _ => false
  end.

Definition is_close (r : Request) : bool :=
  match r with
  | Body_Close _ => true
  | _ => false
  end.

Definition is_body_call (r : Request) : bool :=
  match r with
  | ioutil_ReadAll _ | Body_Close _ => true
  | _ => false
  end.

(** *** A scripted outside world with arbitrary replies, for concrete runs

    Each call gets the reply written in the script, whatever it is: errors,
    statuses other than 200, nil pointers. *)
Record Script : Type := {
  get_reply : Z -> option godo.Droplet * option godo.Response * option error;
  list_reply : list godo.Droplet * option godo.Response * option error;
  http_reply : option http.Response * option error;
  read_reply : list byte * option error;
  close_reply : option error
}.

Definition scripted : Handler Script :=
  fun r w =>
    match r as r0 return Reply r0 * Script with
    | Droplets_Get _ id => (get_reply w id, w)
    | Droplets_List _ _ => (list_reply w, w)
    | http_Get _ => (http_reply w, w)
    | ioutil_ReadAll _ => (read_reply w, w)
    | Body_Close _ => (close_reply w, w)
    end.

(** No connection: every call comes back with a transport error, although
    the client still hands over what it had. *)
Definition refused : Script :=
  {| get_reply := fun _ => (Some node_a, Some {| godo.StatusCode := 200 |},
                            Some (errorString "connection refused"));
     list_reply := ([node_a], Some {| godo.StatusCode := 200 |},
                    Some (errorString "connection refused"));
     http_reply := (None, Some (errorString "connection refused"));
     read_reply := ([], Some (errorString "unexpected EOF"));
     close_reply := None |}.

(** The services answer, with status 503 and no error value. *)
Definition outage : Script :=
  {| get_reply := fun _ => (Some node_a, Some {| godo.StatusCode := 503 |}, None);
     list_reply := ([], Some {| godo.StatusCode := 503 |}, None);
     http_reply := (Some {| http.StatusCode := 503; http.Body := http.body 1 |}, None);
     read_reply := (["4"%byte; "2"%byte], None);
     close_reply := None |}.

(** The metadata endpoint answers 200 and the body breaks off while it is
    read; closing the body fails too. *)
Definition truncated : Script :=
  {| get_reply := fun _ => (Some node_a, Some {| godo.StatusCode := 200 |}, None);
     list_reply := ([node_a], Some {| godo.StatusCode := 200 |}, None);
     http_reply := (Some {| http.StatusCode := 200; http.Body := http.body 2 |}, None);
     read_reply := (["4"%byte], Some (errorString "unexpected EOF"));
     close_reply := Some (errorString "already closed") |}.

(** The client answers 200 without a droplet. *)
Definition empty_answer : Script :=
  {| get_reply := fun _ => (None, Some {| godo.StatusCode := 200 |}, None);
     list_reply := ([], Some {| godo.StatusCode := 200 |}, None);
     http_reply := (Some {| http.StatusCode := 200; http.Body := http.body 3 |}, None);
     read_reply := (["4"%byte; "2"%byte], None);
     close_reply := Some (errorString "already closed") |}.


(** The client returns from a List with neither a response nor an error. *)
Definition no_response : Script :=
  {| get_reply := fun _ => (None, None, None);
     list_reply := ([node_a], None, None);
     http_reply := (None, Some (errorString "connection refused"));
     read_reply := ([], None);
     close_reply := None |}.

(** The fleet, with a metadata endpoint that ends the id with a newline. *)
Definition fleet_newline : Cloud :=
  {| cloud_droplets := cloud_droplets fleet;
     metadata_status := 200;
     metadata_body := ["4"%byte; "2"%byte; x0a] |}.

(* ===================================================================== *)
(** ** Properties *)
(* ===================================================================== *)

(** *** Running programs *)

Lemma run_bind (W A B : Type) (h : Handler W) (p : Prog A) (f : A -> Prog B) (w : W) :
  run h (bind p f) w =
  match run h p w with
  | (Returned a, w1, t1) =>
      let '(o, w2, t2) := run h (f a) w1 in (o, w2, t1 ++ t2)
  | (Panicked msg, w1, t1) => (Panicked msg, w1, t1)
  end.
Proof.
  revert w. induction p as [a | msg | r k IH]; intros w; simpl.
  - destruct (run h (f a) w) as [[o w2] t2]. reflexivity.
  - reflexivity.
  - destruct (h r w) as [x w1]. rewrite IH.
    destruct (run h (k x) w1) as [[[a | msg] w2] t1]; [| reflexivity].
    destruct (run h (f a) w2) as [[o w3] t2]. reflexivity.
Qed.

(** A program that makes no call leaves the world as it is. *)
Lemma run_Ret (W A : Type) (h : Handler W) (a : A) (w : W) :
  run h (Ret a) w = (Returned a, w, []).
Proof. reflexivity. Qed.

(** *** strconv.Atoi *)

Lemma digit_range (c : ascii) (d : Z) : strconv.digit c = Some d -> 0 <= d <= 9.
Proof.
  unfold strconv.digit.
  destruct (Z.leb_spec 48 (Z.of_N (N_of_ascii c)));
    destruct (Z.leb_spec (Z.of_N (N_of_ascii c)) 57); simpl;
    intros Hd; inversion Hd; lia.
Qed.

Lemma digits_value_ge (s : string) (n : Z) : 0 <= n -> n <= digits_value s n.
Proof.
  revert n. induction s as [| c rest IH]; intros n Hn; simpl; [lia |].
  destruct (strconv.digit c) as [d |] eqn:Hd.
  - apply digit_range in Hd.
    specialize (IH (n * 10 + d)). lia.
  - specialize (IH (n * 10 + 0)). lia.
Qed.

(** On digits, the loop of ParseUint computes the number written, unless it
    leaves uint64. *)
Lemma ParseUint_loop_digits (fn s0 s : string) (n : Z) :
  all_digits s = true ->
  0 <= n <= maxUint64 ->
  strconv.ParseUint_loop fn s0 s n =
    if digits_value s n <=? maxUint64 then (digits_value s n, None)
    else (maxUint64, Some (strconv.rangeError fn s0)).
Proof.
  revert n. induction s as [| c rest IH]; intros n Hs Hn; simpl.
  - destruct (Z.leb_spec n maxUint64); [reflexivity | lia].
  - simpl in Hs. destruct (strconv.digit c) as [d |] eqn:Hd; [| discriminate].
    apply digit_range in Hd.
    pose proof (@digits_value_ge rest (n * 10 + d)) as Hge.
    unfold maxUint64 in *.
    change (2 ^ 64) with 18446744073709551616 in *.
    change (Z.pow_pos 2 64) with 18446744073709551616 in *.
    change ((18446744073709551616 - 1) / 10 + 1) with 1844674407370955162.
    destruct (Z.leb_spec 1844674407370955162 n) as [Hcut | Hcut].
    + destruct (Z.leb_spec (digits_value rest (n * 10 + d)) (18446744073709551616 - 1));
        [lia | reflexivity].
    + rewrite (Z.mod_small (n * 10)) by lia.
      destruct (Z.lt_ge_cases (n * 10 + d) 18446744073709551616) as [Hfit | Hwrap].
      * rewrite (Z.mod_small (n * 10 + d)) by lia.
        destruct (Z.ltb_spec (n * 10 + d) (n * 10)); [lia |].
        destruct (Z.ltb_spec (18446744073709551616 - 1) (n * 10 + d)); [lia |].
        cbn [orb]. apply IH; [exact Hs | lia].
      * assert (Hmod : (n * 10 + d) mod 18446744073709551616
                       = n * 10 + d - 18446744073709551616).
        { symmetry. apply Z.mod_unique with (q := 1); lia. }
        rewrite Hmod.
        destruct (Z.ltb_spec (n * 10 + d - 18446744073709551616) (n * 10)); [| lia].
        cbn [orb].
        destruct (Z.leb_spec (digits_value rest (n * 10 + d)) (18446744073709551616 - 1));
          [lia | reflexivity].
Qed.

(** A byte that is no digit makes the loop fail. *)
Lemma ParseUint_loop_not_digits (fn s0 s : string) (n : Z) :
  all_digits s = false ->
  snd (strconv.ParseUint_loop fn s0 s n) <> None.
Proof.
  revert n. induction s as [| c rest IH]; intros n Hs; simpl in *; [discriminate |].
  destruct (strconv.digit c) as [d |]; [| simpl; discriminate].
  destruct (_ <=? n); [simpl; discriminate |].
  destruct (_ || _); [simpl; discriminate |].
  apply IH. exact Hs.
Qed.

Lemma ParseUint_digits (fn s0 s : string) :
  s <> "" ->
  all_digits s = true ->
  strconv.ParseUint fn s0 s =
    if digits_value s 0 <=? maxUint64 then (digits_value s 0, None)
    else (maxUint64, Some (strconv.rangeError fn s0)).
Proof.
  intros Hne Hs. destruct s as [| c rest]; [congruence |].
  unfold strconv.ParseUint. apply ParseUint_loop_digits; [exact Hs |].
  unfold maxUint64. lia.
Qed.

Lemma ParseUint_not_digits (fn s0 s : string) :
  s = "" \/ all_digits s = false ->
  snd (strconv.ParseUint fn s0 s) <> None.
Proof.
  intros [Hs | Hs].
  - subst s. simpl. discriminate.
  - destruct s as [| c rest]; [simpl; discriminate |].
    unfold strconv.ParseUint. apply ParseUint_loop_not_digits. exact Hs.
Qed.

(** strconv.Atoi converts exactly the strings made of an optional sign and
    at least one decimal digit whose value fits the platform's int, to that
    value; every other string gets an error. *)
Lemma Atoi_in_range (s : string) :
  integer_syntax s = true ->
  minInt <= integer_value s <= maxInt ->
  strconv.Atoi s = (integer_value s, None).
Proof.
  intros Hsyn Hval. destruct s as [| c rest]; [discriminate |].
  unfold strconv.Atoi, strconv.ParseInt, integer_syntax, integer_value, minInt, maxInt in *.
  change (2 ^ (intSize - 1)) with 9223372036854775808 in *.
  pose proof (@digits_value_ge rest 0) as Hge.
  cbv zeta.
  destruct (Ascii.eqb c "-") eqn:Em; destruct (Ascii.eqb c "+") eqn:Ep;
    cbn [orb negb andb] in *.
  - apply Ascii.eqb_eq in Em, Ep. congruence.
  - apply andb_true_iff in Hsyn. destruct Hsyn as [Hne Hdig].
    apply negb_true_iff, String.eqb_neq in Hne.
    rewrite (ParseUint_digits _ _ Hne Hdig). unfold maxUint64.
    change (2 ^ 64) with 18446744073709551616.
    destruct (Z.leb_spec (digits_value rest 0) (18446744073709551616 - 1)); [| lia].
    destruct (Z.ltb_spec 9223372036854775808 (digits_value rest 0)); [lia |].
    reflexivity.
  - apply andb_true_iff in Hsyn. destruct Hsyn as [Hne Hdig].
    apply negb_true_iff, String.eqb_neq in Hne.
    rewrite (ParseUint_digits _ _ Hne Hdig). unfold maxUint64.
    change (2 ^ 64) with 18446744073709551616.
    destruct (Z.leb_spec (digits_value rest 0) (18446744073709551616 - 1)); [| lia].
    destruct (Z.leb_spec 9223372036854775808 (digits_value rest 0)); [lia |].
    reflexivity.
  - assert (Hne : String c rest <> "") by discriminate.
    rewrite (ParseUint_digits _ _ Hne Hsyn). unfold maxUint64.
    change (2 ^ 64) with 18446744073709551616.
    cbn [digits_value] in *.
    destruct (Z.leb_spec (digits_value rest (0 * 10 + match strconv.digit c with
                                                      | Some d => d
                                                      | None => 0
                                                      end))
                (18446744073709551616 - 1)); [| lia].
    destruct (Z.leb_spec 9223372036854775808
                (digits_value rest (0 * 10 + match strconv.digit c with
                                             | Some d => d
                                             | None => 0
                                             end))); [lia |].
    reflexivity.
Qed.

Lemma Atoi_out_of_range (s : string) :
  integer_syntax s = true ->
  ~ (minInt <= integer_value s <= maxInt) ->
  snd (strconv.Atoi s) = Some (strconv.rangeError strconv.fnAtoi s).
Proof.
  intros Hsyn Hval. destruct s as [| c rest]; [discriminate |].
  unfold strconv.Atoi, strconv.ParseInt, integer_syntax, integer_value, minInt, maxInt in *.
  change (2 ^ (intSize - 1)) with 9223372036854775808 in *.
  pose proof (@digits_value_ge rest 0) as Hge.
  cbv zeta.
  destruct (Ascii.eqb c "-") eqn:Em; destruct (Ascii.eqb c "+") eqn:Ep;
    cbn [orb negb andb] in *.
  - apply Ascii.eqb_eq in Em, Ep. congruence.
  - apply andb_true_iff in Hsyn. destruct Hsyn as [Hne Hdig].
    apply negb_true_iff, String.eqb_neq in Hne.
    rewrite (ParseUint_digits _ _ Hne Hdig). unfold maxUint64.
    change (2 ^ 64) with 18446744073709551616.
    destruct (Z.leb_spec (digits_value rest 0) (18446744073709551616 - 1)).
    + destruct (Z.ltb_spec 9223372036854775808 (digits_value rest 0)); [| lia].
      reflexivity.
    + reflexivity.
  - apply andb_true_iff in Hsyn. destruct Hsyn as [Hne Hdig].
    apply negb_true_iff, String.eqb_neq in Hne.
    rewrite (ParseUint_digits _ _ Hne Hdig). unfold maxUint64.
    change (2 ^ 64) with 18446744073709551616.
    destruct (Z.leb_spec (digits_value rest 0) (18446744073709551616 - 1)).
    + destruct (Z.leb_spec 9223372036854775808 (digits_value rest 0)); [| lia].
      reflexivity.
    + reflexivity.
  - assert (Hne : String c rest <> "") by discriminate.
    rewrite (ParseUint_digits _ _ Hne Hsyn). unfold maxUint64.
    change (2 ^ 64) with 18446744073709551616.
    pose proof (@digits_value_ge (String c rest) 0) as Hge'.
    destruct (Z.leb_spec (digits_value (String c rest) 0) (18446744073709551616 - 1)).
    + destruct (Z.leb_spec 9223372036854775808 (digits_value (String c rest) 0)); [| lia].
      reflexivity.
    + reflexivity.
Qed.

Lemma Atoi_bad_syntax (s : string) :
  integer_syntax s = false -> snd (strconv.Atoi s) <> None.
Proof.
  intros Hsyn. destruct s as [| c rest]; [simpl; discriminate |].
  unfold strconv.Atoi, strconv.ParseInt, integer_syntax in *. cbv zeta.
  assert (Hbody : snd (strconv.ParseUint strconv.fnAtoi (String c rest)
                         (if Ascii.eqb c "+" || Ascii.eqb c "-" then rest
                          else String c rest)) <> None).
  { apply ParseUint_not_digits.
    destruct (Ascii.eqb c "+" || Ascii.eqb c "-").
    - apply andb_false_iff in Hsyn. destruct Hsyn as [Hne | Hdig]; [left | right; exact Hdig].
      apply negb_false_iff, String.eqb_eq in Hne. exact Hne.
    - right. exact Hsyn. }
  destruct (strconv.ParseUint _ _ _) as [un [e |]]; [| exfalso; apply Hbody; reflexivity].
  destruct (negb (strconv.is_ErrRange e)); [simpl; discriminate |].
  destruct (Ascii.eqb c "-"); simpl; discriminate.
Qed.

Lemma Atoi_ok_iff (s : string) :
  snd (strconv.Atoi s) = None
  <-> integer_syntax s = true /\ minInt <= integer_value s <= maxInt.
Proof.
  split.
  - intros Hok. destruct (integer_syntax s) eqn:Hsyn.
    + split; [reflexivity |].
      destruct (Z_le_dec minInt (integer_value s)) as [Hlo | Hlo];
        destruct (Z_le_dec (integer_value s) maxInt) as [Hhi | Hhi];
        try (split; assumption);
        rewrite (@Atoi_out_of_range s Hsyn) in Hok by lia; discriminate.
    + exfalso. apply (@Atoi_bad_syntax s Hsyn). exact Hok.
  - intros [Hsyn Hval]. rewrite (@Atoi_in_range s Hsyn Hval). reflexivity.
Qed.

(** What strconv.Atoi returns without error is an int. *)
Lemma Atoi_value (s : string) (i : Z) :
  strconv.Atoi s = (i, None) -> i = integer_value s /\ minInt <= i <= maxInt.
Proof.
  intros Hatoi.
  assert (Hok : snd (strconv.Atoi s) = None) by (rewrite Hatoi; reflexivity).
  apply Atoi_ok_iff in Hok. destruct Hok as [Hsyn Hval].
  rewrite (@Atoi_in_range s Hsyn Hval) in Hatoi. inversion Hatoi. subst i.
  split; [reflexivity | exact Hval].
Qed.

(** *** strconv.Itoa *)

Lemma digit_not_sign (c : ascii) (d : Z) :
  strconv.digit c = Some d -> Ascii.eqb c "+" || Ascii.eqb c "-" = false.
Proof.
  intros Hd.
  destruct (Ascii.eqb_spec c "+") as [-> | _]; [discriminate |].
  destruct (Ascii.eqb_spec c "-") as [-> | _]; [discriminate |].
  reflexivity.
Qed.

Lemma string_of_uint_digits (d : Decimal.uint) :
  all_digits (NilEmpty.string_of_uint d) = true.
Proof. induction d; simpl; auto. Qed.

Lemma string_of_uint_value_acc (d : Decimal.uint) (acc : positive) :
  digits_value (NilEmpty.string_of_uint d) (Z.pos acc) = Z.pos (Pos.of_uint_acc d acc).
Proof.
  revert acc.
  induction d as [| d IH | d IH | d IH | d IH | d IH | d IH | d IH | d IH | d IH | d IH];
    intros acc; [reflexivity | ..];
    cbn [NilEmpty.string_of_uint digits_value Pos.of_uint_acc];
    rewrite <- IH; f_equal;
    match goal with
    | |- context [strconv.digit ?c] =>
        let v := eval vm_compute in (strconv.digit c) in
        change (strconv.digit c) with v
    end;
    cbv iota; lia.
Qed.

Lemma string_of_uint_value (d : Decimal.uint) :
  digits_value (NilEmpty.string_of_uint d) 0 = Z.of_N (Pos.of_uint d).
Proof.
  induction d as [| d IH | d IH | d IH | d IH | d IH | d IH | d IH | d IH | d IH | d IH];
    [reflexivity | exact IH | ..];
    cbn [NilEmpty.string_of_uint digits_value Pos.of_uint Z.of_N];
    rewrite <- string_of_uint_value_acc; reflexivity.
Qed.

Lemma string_of_to_uint (p : positive) :
  NilZero.string_of_uint (Pos.to_uint p) = NilEmpty.string_of_uint (Pos.to_uint p)
  /\ NilEmpty.string_of_uint (Pos.to_uint p) <> ""
  /\ all_digits (NilEmpty.string_of_uint (Pos.to_uint p)) = true
  /\ digits_value (NilEmpty.string_of_uint (Pos.to_uint p)) 0 = Z.pos p.
Proof.
  pose proof (DecimalPos.Unsigned.to_uint_nonnil p) as Hnil.
  repeat split.
  - destruct (Pos.to_uint p); [congruence | reflexivity ..].
  - destruct (Pos.to_uint p); [congruence | discriminate ..].
  - apply string_of_uint_digits.
  - rewrite string_of_uint_value, DecimalPos.Unsigned.of_to. reflexivity.
Qed.

(** The decimal string of an int is accepted by strconv.Atoi and converts
    back to the int. *)
Lemma Atoi_Itoa (i : Z) :
  minInt <= i <= maxInt -> strconv.Atoi (strconv.Itoa i) = (i, None).
Proof.
  intros Hi.
  assert (Hs : integer_syntax (strconv.Itoa i) = true
               /\ integer_value (strconv.Itoa i) = i).
  { destruct i as [| p | p]; unfold strconv.Itoa; cbn [Z.to_int NilZero.string_of_int].
    - split; reflexivity.
    - destruct (string_of_to_uint p) as [-> [Hne [Hdig Hval]]].
      destruct (NilEmpty.string_of_uint (Pos.to_uint p)) as [| c rest] eqn:E;
        [congruence |].
      unfold integer_syntax, integer_value.
      assert (Hsign : Ascii.eqb c "+" || Ascii.eqb c "-" = false).
      { cbn [all_digits] in Hdig.
        destruct (strconv.digit c) as [d |] eqn:Hd; [| discriminate].
        apply (digit_not_sign _ Hd). }
      rewrite Hsign. apply orb_false_iff in Hsign. destruct Hsign as [-> ->].
      split; assumption.
    - destruct (string_of_to_uint p) as [-> [Hne [Hdig Hval]]].
      unfold integer_syntax, integer_value.
      change (Ascii.eqb "-" "+" || Ascii.eqb "-" "-") with true.
      change (Ascii.eqb "-" "-") with true. cbv iota.
      rewrite Hdig, Hval. apply String.eqb_neq in Hne. rewrite Hne.
      split; reflexivity. }
  destruct Hs as [Hsyn Hval].
  rewrite <- Hval in Hi. rewrite (@Atoi_in_range _ Hsyn Hi), Hval. reflexivity.
Qed.

(** *** The address accessors *)

Lemma PrivateIPv4_error (d : godo.Droplet) (e : error) :
  snd (godo.PrivateIPv4 d) = Some e -> fst (godo.PrivateIPv4 d) = "".
Proof. unfold godo.PrivateIPv4. destruct (godo.Networks_ d); simpl; congruence. Qed.

Lemma PublicIPv4_error (d : godo.Droplet) (e : error) :
  snd (godo.PublicIPv4 d) = Some e -> fst (godo.PublicIPv4 d) = "".
Proof. unfold godo.PublicIPv4. destruct (godo.Networks_ d); simpl; congruence. Qed.

Lemma eqb_empty_false (s : string) : s <> "" -> String.eqb s "" = false.
Proof. intros H. apply String.eqb_neq. exact H. Qed.

(** *** NodeAddressesByProviderID, from its lookup *)

(** The function is its lookup followed by [addresses_of]: it makes the
    calls of the lookup and no other. *)
Lemma NodeAddressesByProviderID_run (W : Type) (h : Handler W) (w : W) (providerId : string) :
  run h (NodeAddressesByProviderID providerId) w =
  match run h (dropletById context.TODO providerId) w with
  | (Returned (_, Some e), w1, t1) => (Returned ([], Some e), w1, t1)
  | (Returned (Some d, None), w1, t1) => (Returned (addresses_of d), w1, t1)
  | (Returned (None, None), w1, t1) =>
      (Panicked "invalid memory address or nil pointer dereference", w1, t1)
  | (Panicked msg, w1, t1) => (Panicked msg, w1, t1)
  end.
Proof.
  unfold NodeAddressesByProviderID. rewrite run_bind.
  destruct (run h (dropletById context.TODO providerId) w) as [[[[droplet err] | msg] w1] t1];
    [| reflexivity].
  destruct err as [e |]; simpl.
  - rewrite app_nil_r. destruct droplet; reflexivity.
  - destruct droplet as [d |]; simpl; [| rewrite app_nil_r; reflexivity].
    unfold addresses_of.
    destruct (godo.PrivateIPv4 d) as [privateIP err].
    destruct (_ || _); simpl; [rewrite app_nil_r; reflexivity |].
    destruct (godo.PublicIPv4 d) as [publicIP err'].
    destruct (_ || _); simpl; rewrite app_nil_r; reflexivity.
Qed.

Lemma addresses_of_complete (d : godo.Droplet) :
  fst (godo.PrivateIPv4 d) <> "" ->
  fst (godo.PublicIPv4 d) <> "" ->
  addresses_of d =
    ([ {| v1.Type_ := v1.NodeHostName; v1.Address := godo.Name d |};
       {| v1.Type_ := v1.NodeInternalIP; v1.Address := fst (godo.PrivateIPv4 d) |};
       {| v1.Type_ := v1.NodeExternalIP; v1.Address := fst (godo.PublicIPv4 d) |} ],
     None).
Proof.
  intros Hpriv Hpub. unfold addresses_of.
  pose proof (PrivateIPv4_error d) as Epriv. pose proof (PublicIPv4_error d) as Epub.
  destruct (godo.PrivateIPv4 d) as [privateIP [e |]]; simpl in *.
  - exfalso. apply Hpriv. apply (Epriv e). reflexivity.
  - rewrite (eqb_empty_false Hpriv).
    destruct (godo.PublicIPv4 d) as [publicIP [e |]]; simpl in *.
    + exfalso. apply Hpub. apply (Epub e). reflexivity.
    + rewrite (eqb_empty_false Hpub). reflexivity.
Qed.

(** Whatever the droplet, [addresses_of] gives the three addresses, or no
    address and an error for a missing address. *)
Lemma addresses_of_all_or_nothing (d : godo.Droplet) :
  (has_addresses d = true /\
   addresses_of d =
     ([ {| v1.Type_ := v1.NodeHostName; v1.Address := godo.Name d |};
        {| v1.Type_ := v1.NodeInternalIP; v1.Address := fst (godo.PrivateIPv4 d) |};
        {| v1.Type_ := v1.NodeExternalIP; v1.Address := fst (godo.PublicIPv4 d) |} ],
      None))
  \/ (has_addresses d = false /\
      exists e, addresses_of d = ([], Some e) /\ MissingAddress e = true).
Proof.
  unfold addresses_of, has_addresses.
  destruct (godo.PrivateIPv4 d) as [privateIP [e |]]; simpl.
  - right. split; [reflexivity |]. eexists. split; reflexivity.
  - destruct (String.eqb privateIP ""); simpl.
    + right. split; [destruct (godo.PublicIPv4 d) as [? [? |]]; reflexivity |].
      eexists. split; reflexivity.
    + destruct (godo.PublicIPv4 d) as [publicIP [e |]]; simpl.
      * right. split; [reflexivity |]. eexists. split; reflexivity.
      * destruct (String.eqb publicIP ""); simpl.
        -- right. split; [reflexivity |]. eexists. split; reflexivity.
        -- left. split; reflexivity.
Qed.

(** *** Resolve addresses by provider id *)

(** C2. When the lookup by provider id succeeds with a droplet whose private
    and public IPv4 are non-empty, NodeAddressesByProviderID returns exactly
    the three addresses hostname (the droplet's name), internal IP (the
    private IPv4) and external IP (the public IPv4), in this order, and
    makes no call beyond those of the lookup. *)
Theorem NodeAddressesByProviderID_three_addresses
  (W : Type) (h : Handler W) (w w' : W) (t : list Request)
  (providerId : string) (d : godo.Droplet) :
  run h (dropletById context.TODO providerId) w = (Returned (Some d, None), w', t) ->
  fst (godo.PrivateIPv4 d) <> "" ->
  fst (godo.PublicIPv4 d) <> "" ->
  run h (NodeAddressesByProviderID providerId) w =
    (Returned
       ([ {| v1.Type_ := v1.NodeHostName; v1.Address := godo.Name d |};
          {| v1.Type_ := v1.NodeInternalIP; v1.Address := fst (godo.PrivateIPv4 d) |};
          {| v1.Type_ := v1.NodeExternalIP; v1.Address := fst (godo.PublicIPv4 d) |} ],
        None),
     w', t).
Proof.
  intros Hlookup Hpriv Hpub.
  rewrite NodeAddressesByProviderID_run, Hlookup.
  rewrite (addresses_of_complete d Hpriv Hpub). reflexivity.
Qed.

(** The record of the specification: name node-a, private 10.0.0.5, public
    203.0.113.9. *)
Lemma NodeAddressesByProviderID_three_addresses_witness :
  run cloud (NodeAddressesByProviderID "42") fleet =
    (Returned
       ([ {| v1.Type_ := "Hostname"; v1.Address := "node-a" |};
          {| v1.Type_ := "InternalIP"; v1.Address := "10.0.0.5" |};
          {| v1.Type_ := "ExternalIP"; v1.Address := "203.0.113.9" |} ],
        None),
     fleet, [Droplets_Get context.TODO 42]).
Proof.
  apply (@NodeAddressesByProviderID_three_addresses
           Cloud cloud fleet fleet [Droplets_Get context.TODO 42] "42" node_a).
  - reflexivity.
  - simpl. discriminate.
  - simpl. discriminate.
Defined.

(** C6. When the lookup by provider id succeeds with a droplet whose public
    IPv4 is absent or empty, NodeAddressesByProviderID returns no address and
    an error of the missing-address kind, whatever the private IPv4; and in
    every run that returns, the result is the three addresses without error
    or no address with an error, never a shorter sequence. *)
Theorem NodeAddressesByProviderID_missing_public
  (W : Type) (h : Handler W) (w w' : W) (t : list Request)
  (providerId : string) (d : godo.Droplet) :
  run h (dropletById context.TODO providerId) w = (Returned (Some d, None), w', t) ->
  fst (godo.PublicIPv4 d) = "" ->
  (exists e,
     run h (NodeAddressesByProviderID providerId) w = (Returned ([], Some e), w', t)
     /\ MissingAddress e = true)
  /\
  (forall (W0 : Type) (h0 : Handler W0) (w0 w1 : W0) (t0 : list Request)
          (id : string) (addresses : list v1.NodeAddress) (err : option error),
     run h0 (NodeAddressesByProviderID id) w0 = (Returned (addresses, err), w1, t0) ->
     (err = None /\
      exists name privateIP publicIP,
        privateIP <> "" /\ publicIP <> "" /\
        addresses =
          [ {| v1.Type_ := v1.NodeHostName; v1.Address := name |};
            {| v1.Type_ := v1.NodeInternalIP; v1.Address := privateIP |};
            {| v1.Type_ := v1.NodeExternalIP; v1.Address := publicIP |} ])
     \/ (addresses = [] /\ exists e, err = Some e)).
Proof.
  intros Hlookup Hpub. split.
  - rewrite NodeAddressesByProviderID_run, Hlookup.
    destruct (addresses_of_all_or_nothing d) as [[Hhas _] | [_ [e [He Hkind]]]].
    + exfalso. unfold has_addresses in Hhas.
      destruct (godo.PrivateIPv4 d) as [privateIP [? |]]; [discriminate |].
      destruct (godo.PublicIPv4 d) as [publicIP [? |]]; [discriminate |].
      simpl in Hpub. subst publicIP. simpl in Hhas.
      rewrite andb_false_r in Hhas. discriminate.
    + exists e. rewrite He. split; [reflexivity | exact Hkind].
  - intros W0 h0 w0 w1 t0 id addresses err Hrun.
    rewrite NodeAddressesByProviderID_run in Hrun.
    destruct (run h0 (dropletById context.TODO id) w0)
      as [[[[[d0 |] [e0 |]] | msg] w2] t2]; try discriminate.
    + right. inversion Hrun. split; [reflexivity | eauto].
    + destruct (addresses_of_all_or_nothing d0) as [[Hhas He] | [_ [e [He _]]]];
        rewrite He in Hrun; inversion Hrun.
      * left. split; [reflexivity |].
        exists (godo.Name d0), (fst (godo.PrivateIPv4 d0)), (fst (godo.PublicIPv4 d0)).
        unfold has_addresses in Hhas.
        destruct (godo.PrivateIPv4 d0) as [privateIP [? |]]; [discriminate |].
        destruct (godo.PublicIPv4 d0) as [publicIP [? |]]; [discriminate |].
        apply andb_true_iff in Hhas. destruct Hhas as [Hpriv0 Hpub0].
        apply negb_true_iff in Hpriv0, Hpub0.
        apply String.eqb_neq in Hpriv0, Hpub0.
        simpl. auto.
      * right. split; [reflexivity | eauto].
    + right. inversion Hrun. split; [reflexivity | eauto].
Qed.

(** A droplet with a private interface and no public one, and a droplet
    with no network information at all. *)
Lemma NodeAddressesByProviderID_missing_public_witness :
  exists e,
    run cloud (NodeAddressesByProviderID "43") fleet =
      (Returned ([], Some e), fleet, [Droplets_Get context.TODO 43])
    /\ MissingAddress e = true.
Proof.
  apply (proj1 (@NodeAddressesByProviderID_missing_public
                  Cloud cloud fleet fleet [Droplets_Get context.TODO 43] "43" node_b
                  eq_refl eq_refl)).
Defined.

(** The lookup by id, when the conversion of the id fails: a bare return of
    the wrapped conversion error. *)
Lemma dropletById_conversion_error (ctx : context.Context) (id : string) :
  snd (strconv.Atoi id) <> None ->
  dropletById ctx id =
    Ret (None, Some (fmt.Errorf "error converting droplet id to string: %v"
                       [err_operand (snd (strconv.Atoi id))])).
Proof.
  intros Hparse. unfold dropletById.
  destruct (strconv.Atoi id) as [intId [e |]]; simpl in *.
  - reflexivity.
  - exfalso. apply Hparse. reflexivity.
Qed.

(** The lookup by id, when the id converts and the client answers with
    status 200 and no error: one call, and the client's droplet. *)
Lemma dropletById_got
  (W : Type) (h : Handler W) (w w' : W) (ctx : context.Context) (id : string)
  (intId : Z) (droplet : option godo.Droplet) (resp : godo.Response) :
  strconv.Atoi id = (intId, None) ->
  h (Droplets_Get ctx intId) w = ((droplet, Some resp, None), w') ->
  godo.StatusCode resp = http.StatusOK ->
  run h (dropletById ctx id) w = (Returned (droplet, None), w', [Droplets_Get ctx intId]).
Proof.
  intros Hid Hget Hstatus. unfold dropletById. rewrite Hid. simpl.
  rewrite Hget. simpl. rewrite Hstatus. reflexivity.
Qed.

(** The id string InstanceID returns for a droplet leads the lookup by id
    to ask the client for that droplet's id. *)
Lemma dropletById_of_Itoa
  (W : Type) (h : Handler W) (w w' : W) (ctx : context.Context)
  (d : godo.Droplet) (droplet : option godo.Droplet) (resp : godo.Response) :
  minInt <= godo.ID d <= maxInt ->
  h (Droplets_Get ctx (godo.ID d)) w = ((droplet, Some resp, None), w') ->
  godo.StatusCode resp = http.StatusOK ->
  run h (dropletById ctx (strconv.Itoa (godo.ID d))) w =
    (Returned (droplet, None), w', [Droplets_Get ctx (godo.ID d)]).
Proof.
  intros Hint. apply dropletById_got. apply Atoi_Itoa. exact Hint.
Qed.

(** A provider id that is not an optional sign followed by decimal digits
    is rejected before any call. *)
Lemma NodeAddressesByProviderID_not_a_number (providerId : string) :
  integer_syntax providerId = false ->
  NodeAddressesByProviderID providerId =
    Ret ([], Some (fmt.Errorf "error converting droplet id to string: %v"
                     [err_operand (snd (strconv.Atoi providerId))])).
Proof.
  intros Hsyn. unfold NodeAddressesByProviderID.
  rewrite (@dropletById_conversion_error context.TODO providerId
             (@Atoi_bad_syntax providerId Hsyn)).
  reflexivity.
Qed.

(** C3. A provider id that [strconv.Atoi] does not convert (by Atoi_ok_iff:
    any string that is not an optional sign followed by decimal digits of a
    value fitting int) makes NodeAddressesByProviderID, through dropletById,
    return no address and the invalid-id error; both programs are a bare
    return, so in every world the run makes no call at all (neither of the
    client nor of HTTP) and leaves the world untouched. *)
Theorem NodeAddressesByProviderID_invalid_id (providerId : string) :
  snd (strconv.Atoi providerId) <> None ->
  exists e,
    InvalidID e = true
    /\ dropletById context.TODO providerId = Ret (None, Some e)
    /\ NodeAddressesByProviderID providerId = Ret ([], Some e)
    /\ forall (W : Type) (h : Handler W) (w : W),
         run h (NodeAddressesByProviderID providerId) w = (Returned ([], Some e), w, []).
Proof.
  intros Hparse.
  pose proof (@dropletById_conversion_error context.TODO providerId Hparse) as Hlookup.
  assert (Hprog : NodeAddressesByProviderID providerId =
                  Ret ([], Some (fmt.Errorf "error converting droplet id to string: %v"
                                   [err_operand (snd (strconv.Atoi providerId))]))).
  { unfold NodeAddressesByProviderID. rewrite Hlookup. reflexivity. }
  eexists. split; [| split; [exact Hlookup | split; [exact Hprog |]]].
  - destruct (snd (strconv.Atoi providerId)); [reflexivity | congruence].
  - intros W h w. rewrite Hprog. reflexivity.
Qed.

Lemma NodeAddressesByProviderID_invalid_id_witness :
  exists e,
    InvalidID e = true
    /\ dropletById context.TODO "abc" = Ret (None, Some e)
    /\ NodeAddressesByProviderID "abc" = Ret ([], Some e)
    /\ forall (W : Type) (h : Handler W) (w : W),
         run h (NodeAddressesByProviderID "abc") w = (Returned ([], Some e), w, []).
Proof.
  apply (NodeAddressesByProviderID_invalid_id "abc"). simpl. discriminate.
Defined.

(** *** Resolve by node name *)

Lemma range_droplets_first (before after : list godo.Droplet) (d : godo.Droplet)
  (nodeName : types.NodeName) :
  Forall (fun x => godo.Name x <> nodeName) before ->
  godo.Name d = nodeName ->
  range_droplets (before ++ d :: after) nodeName = Some d.
Proof.
  intros Hbefore Hd. induction Hbefore as [| x l Hx _ IH]; simpl.
  - apply String.eqb_eq in Hd. rewrite Hd. reflexivity.
  - apply String.eqb_neq in Hx. rewrite Hx. exact IH.
Qed.

Lemma range_droplets_none (droplets : list godo.Droplet) (nodeName : types.NodeName) :
  Forall (fun x => godo.Name x <> nodeName) droplets ->
  range_droplets droplets nodeName = None.
Proof.
  intros Hall. induction Hall as [| x l Hx _ IH]; simpl.
  - reflexivity.
  - apply String.eqb_neq in Hx. rewrite Hx. exact IH.
Qed.

(** What the loop returns is a listed droplet of that name, with no droplet
    of that name before it. *)
Lemma range_droplets_Some (droplets : list godo.Droplet) (nodeName : types.NodeName)
  (d : godo.Droplet) :
  range_droplets droplets nodeName = Some d ->
  exists before after,
    droplets = before ++ d :: after
    /\ Forall (fun x => godo.Name x <> nodeName) before
    /\ godo.Name d = nodeName.
Proof.
  induction droplets as [| x l IH]; simpl; [discriminate |].
  destruct (String.eqb (godo.Name x) nodeName) eqn:E.
  - intros H. inversion H. subst x. exists [], l.
    apply String.eqb_eq in E. repeat split; [constructor | exact E].
  - intros H. destruct (IH H) as [before [after [Hl [Hbefore Hd]]]].
    exists (x :: before), after. subst l. repeat split; try assumption.
    constructor; [apply String.eqb_neq; exact E | exact Hbefore].
Qed.

(** The lookup by name, when the client lists [droplets] with status 200 and
    no error: one call, then the loop. *)
Lemma dropletByName_listed
  (W : Type) (h : Handler W) (w w' : W) (nodeName : types.NodeName)
  (droplets : list godo.Droplet) (resp : godo.Response) :
  h (Droplets_List context.TODO {| godo.Page := 0; godo.PerPage := 0 |}) w
    = ((droplets, Some resp, None), w') ->
  godo.StatusCode resp = http.StatusOK ->
  run h (dropletByName context.TODO nodeName) w =
    (Returned match range_droplets droplets nodeName with
              | Some d => (Some d, None)
              | None => (None, Some cloudprovider.InstanceNotFound)
              end,
     w', [Droplets_List context.TODO {| godo.Page := 0; godo.PerPage := 0 |}]).
Proof.
  intros Hlist Hstatus. unfold dropletByName. simpl. rewrite Hlist. simpl.
  rewrite Hstatus. simpl.
  destruct (range_droplets droplets nodeName); reflexivity.
Qed.

(** InstanceID and InstanceType, from their lookup. *)
Lemma InstanceID_run (W : Type) (h : Handler W) (w : W) (nodeName : types.NodeName) :
  run h (InstanceID nodeName) w =
  match run h (dropletByName context.TODO nodeName) w with
  | (Returned (_, Some e), w1, t1) => (Returned ("", Some e), w1, t1)
  | (Returned (Some d, None), w1, t1) =>
      (Returned (strconv.Itoa (godo.ID d), None), w1, t1)
  | (Returned (None, None), w1, t1) =>
      (Panicked "invalid memory address or nil pointer dereference", w1, t1)
  | (Panicked msg, w1, t1) => (Panicked msg, w1, t1)
  end.
Proof.
  unfold InstanceID. rewrite run_bind.
  destruct (run h (dropletByName context.TODO nodeName) w)
    as [[[[[d |] [e |]] | msg] w1] t1]; simpl; rewrite ?app_nil_r; reflexivity.
Qed.

Lemma InstanceType_run (W : Type) (h : Handler W) (w : W) (name : types.NodeName) :
  run h (InstanceType name) w =
  match run h (dropletByName context.TODO name) w with
  | (Returned (_, Some e), w1, t1) => (Returned ("", Some e), w1, t1)
  | (Returned (Some d, None), w1, t1) => (Returned (godo.SizeSlug d, None), w1, t1)
  | (Returned (None, None), w1, t1) =>
      (Panicked "invalid memory address or nil pointer dereference", w1, t1)
  | (Panicked msg, w1, t1) => (Panicked msg, w1, t1)
  end.
Proof.
  unfold InstanceType. rewrite run_bind.
  destruct (run h (dropletByName context.TODO name) w)
    as [[[[[d |] [e |]] | msg] w1] t1]; simpl; rewrite ?app_nil_r; reflexivity.
Qed.

Lemma InstanceTypeByProviderID_run (W : Type) (h : Handler W) (w : W) (providerId : string) :
  run h (InstanceTypeByProviderID providerId) w =
  match run h (dropletById context.TODO providerId) w with
  | (Returned (_, Some e), w1, t1) => (Returned ("", Some e), w1, t1)
  | (Returned (Some d, None), w1, t1) => (Returned (godo.SizeSlug d, None), w1, t1)
  | (Returned (None, None), w1, t1) =>
      (Panicked "invalid memory address or nil pointer dereference", w1, t1)
  | (Panicked msg, w1, t1) => (Panicked msg, w1, t1)
  end.
Proof.
  unfold InstanceTypeByProviderID. rewrite run_bind.
  destruct (run h (dropletById context.TODO providerId) w)
    as [[[[[d |] [e |]] | msg] w1] t1]; simpl; rewrite ?app_nil_r; reflexivity.
Qed.

(** C4. When the client lists droplets with status 200 and no error,
    InstanceID returns the decimal string of the id of the first listed
    droplet whose name is, byte for byte, the node name; and it fails with
    InstanceNotFound when no listed droplet has that name. *)
Theorem InstanceID_first_match
  (W : Type) (h : Handler W) (w w' : W) (nodeName : types.NodeName)
  (droplets : list godo.Droplet) (resp : godo.Response) :
  h (Droplets_List context.TODO {| godo.Page := 0; godo.PerPage := 0 |}) w
    = ((droplets, Some resp, None), w') ->
  godo.StatusCode resp = http.StatusOK ->
  (forall before d after,
     droplets = before ++ d :: after ->
     Forall (fun x => godo.Name x <> nodeName) before ->
     godo.Name d = nodeName ->
     run h (InstanceID nodeName) w =
       (Returned (strconv.Itoa (godo.ID d), None), w',
        [Droplets_List context.TODO {| godo.Page := 0; godo.PerPage := 0 |}]))
  /\
  (Forall (fun x => godo.Name x <> nodeName) droplets ->
   run h (InstanceID nodeName) w =
     (Returned ("", Some cloudprovider.InstanceNotFound), w',
      [Droplets_List context.TODO {| godo.Page := 0; godo.PerPage := 0 |}])).
Proof.
  intros Hlist Hstatus. split.
  - intros before d after Hsplit Hbefore Hd.
    rewrite InstanceID_run, (dropletByName_listed h w nodeName Hlist Hstatus).
    rewrite Hsplit, (@range_droplets_first before after d nodeName Hbefore Hd).
    reflexivity.
  - intros Hnone.
    rewrite InstanceID_run, (dropletByName_listed h w nodeName Hlist Hstatus).
    rewrite (@range_droplets_none droplets nodeName Hnone). reflexivity.
Qed.

(** In the fleet, two droplets are named node-a and one Node-A, listed
    first: the id returned for node-a is that of the first droplet named
    node-a, and no droplet is named node-z. *)
Lemma InstanceID_first_match_witness :
  run cloud (InstanceID "node-a") fleet =
    (Returned ("42", None), fleet,
     [Droplets_List context.TODO {| godo.Page := 0; godo.PerPage := 0 |}])
  /\ run cloud (InstanceID "node-z") fleet =
       (Returned ("", Some cloudprovider.InstanceNotFound), fleet,
        [Droplets_List context.TODO {| godo.Page := 0; godo.PerPage := 0 |}]).
Proof.
  split.
  - apply (proj1 (@InstanceID_first_match Cloud cloud fleet fleet "node-a"
                    (cloud_droplets fleet) {| godo.StatusCode := 200 |}
                    eq_refl eq_refl)
             [node_c; node_b] node_a [node_a']).
    + reflexivity.
    + repeat constructor; simpl; discriminate.
    + reflexivity.
  - apply (proj2 (@InstanceID_first_match Cloud cloud fleet fleet "node-z"
                    (cloud_droplets fleet) {| godo.StatusCode := 200 |}
                    eq_refl eq_refl)).
    repeat constructor; simpl; discriminate.
Defined.

(** C10. When the client lists no droplet at all, with status 200 and no
    error, InstanceID, ExternalID and InstanceType fail with
    InstanceNotFound, whatever the node name. *)
Theorem empty_list_InstanceNotFound
  (W : Type) (h : Handler W) (w w' : W) (name : types.NodeName) (resp : godo.Response) :
  h (Droplets_List context.TODO {| godo.Page := 0; godo.PerPage := 0 |}) w
    = (([], Some resp, None), w') ->
  godo.StatusCode resp = http.StatusOK ->
  run h (InstanceID name) w =
    (Returned ("", Some cloudprovider.InstanceNotFound), w',
     [Droplets_List context.TODO {| godo.Page := 0; godo.PerPage := 0 |}])
  /\ run h (ExternalID name) w =
       (Returned ("", Some cloudprovider.InstanceNotFound), w',
        [Droplets_List context.TODO {| godo.Page := 0; godo.PerPage := 0 |}])
  /\ run h (InstanceType name) w =
       (Returned ("", Some cloudprovider.InstanceNotFound), w',
        [Droplets_List context.TODO {| godo.Page := 0; godo.PerPage := 0 |}]).
Proof.
  intros Hlist Hstatus.
  pose proof (dropletByName_listed h w name Hlist Hstatus) as Hlookup.
  cbn [range_droplets] in Hlookup.
  unfold ExternalID.
  rewrite InstanceID_run, InstanceType_run, Hlookup. auto.
Qed.

Lemma empty_list_InstanceNotFound_witness :
  run cloud (InstanceID "node-a") empty_cloud =
    (Returned ("", Some cloudprovider.InstanceNotFound), empty_cloud,
     [Droplets_List context.TODO {| godo.Page := 0; godo.PerPage := 0 |}])
  /\ run cloud (ExternalID "node-a") empty_cloud =
       (Returned ("", Some cloudprovider.InstanceNotFound), empty_cloud,
        [Droplets_List context.TODO {| godo.Page := 0; godo.PerPage := 0 |}])
  /\ run cloud (InstanceType "node-a") empty_cloud =
       (Returned ("", Some cloudprovider.InstanceNotFound), empty_cloud,
        [Droplets_List context.TODO {| godo.Page := 0; godo.PerPage := 0 |}]).
Proof.
  apply (@empty_list_InstanceNotFound Cloud cloud empty_cloud empty_cloud "node-a"
           {| godo.StatusCode := 200 |}).
  - reflexivity.
  - reflexivity.
Defined.

(** C5. ExternalID is InstanceID: the same program, hence the same calls,
    the same result and the same final world under every behaviour of the
    client. *)
Theorem ExternalID_is_InstanceID (nodeName : types.NodeName) :
  ExternalID nodeName = InstanceID nodeName
  /\ forall (W : Type) (h : Handler W) (w : W),
       run h (ExternalID nodeName) w = run h (InstanceID nodeName) w.
Proof. split; reflexivity. Qed.

(** C9. NodeAddresses does not depend on the node name it is given: for
    any two names it is the same program, hence the same result, calls and
    final world under every behaviour of the metadata endpoint and the
    client; every run is the fetch of the instance's own id from the
    metadata endpoint followed, when the fetch succeeds, by the resolution
    by that id. *)
Theorem NodeAddresses_ignores_name (n1 n2 : types.NodeName) :
  NodeAddresses n1 = NodeAddresses n2
  /\ (forall (W : Type) (h : Handler W) (w : W),
        run h (NodeAddresses n1) w = run h (NodeAddresses n2) w)
  /\ (forall (W : Type) (h : Handler W) (w : W),
        run h (NodeAddresses n1) w =
        match run h (httpGet dropletIDMetadataURL) w with
        | (Returned (_, Some e), w1, t1) => (Returned ([], Some e), w1, t1)
        | (Returned (selfDropletID, None), w1, t1) =>
            let '(o, w2, t2) := run h (NodeAddressesByProviderID selfDropletID) w1 in
            (o, w2, t1 ++ t2)
        | (Panicked msg, w1, t1) => (Panicked msg, w1, t1)
        end).
Proof.
  split; [reflexivity |]. split; [reflexivity |].
  intros W h w. unfold NodeAddresses, dropletID. rewrite run_bind.
  destruct (run h (httpGet dropletIDMetadataURL) w)
    as [[[[selfDropletID [e |]] | msg] w1] t1]; simpl.
  - rewrite app_nil_r. reflexivity.
  - reflexivity.
  - reflexivity.
Qed.

(** *** The operations that make no call *)

(** C7. CurrentNodeName returns the hostname it is given, unchanged and
    without error, for every string; it makes no call. *)
Theorem CurrentNodeName_identity (hostname : string) :
  CurrentNodeName hostname = Ret (hostname, None)
  /\ forall (W : Type) (h : Handler W) (w : W),
       run h (CurrentNodeName hostname) w = (Returned (hostname, None), w, []).
Proof. split; reflexivity. Qed.

(** C8. AddSSHKeyToAllInstances returns the not-implemented error for every
    user and every key; it makes no call. *)
Theorem AddSSHKeyToAllInstances_not_implemented (user : string) (keyData : list byte) :
  exists e,
    NotImplemented e = true
    /\ AddSSHKeyToAllInstances user keyData = Ret (Some e)
    /\ forall (W : Type) (h : Handler W) (w : W),
         run h (AddSSHKeyToAllInstances user keyData) w = (Returned (Some e), w, []).
Proof.
  exists (errors.New "not implemented yet"). repeat split.
Qed.

(** *** The lookups and the addresses of the record *)




(* ===================================================================== *)
(** ** Further properties of the package *)
(* ===================================================================== *)

(** *** httpGet: the metadata fetch *)

(** X1. When http.Get returns an error, httpGet returns the empty string and
    that error after this one call: the body is neither read nor closed,
    whatever response came with the error. *)
Theorem httpGet_transport_error
  (W : Type) (h : Handler W) (w w1 : W) (url : string)
  (resp : option http.Response) (e : error) :
  h (http_Get url) w = ((resp, Some e), w1) ->
  run h (httpGet url) w = (Returned ("", Some e), w1, [http_Get url]).
Proof.
  intros Hget. unfold httpGet. simpl. rewrite Hget. reflexivity.
Qed.

Lemma httpGet_transport_error_witness :
  run scripted (httpGet dropletIDMetadataURL) refused =
    (Returned ("", Some (errorString "connection refused")), refused,
     [http_Get dropletIDMetadataURL]).
Proof.
  apply (@httpGet_transport_error Script scripted refused refused
           dropletIDMetadataURL None (errorString "connection refused")).
  reflexivity.
Defined.

(** X2. When http.Get answers with a status other than 200, httpGet returns
    the empty string and an error carrying the status code; it does not
    read the body, and closes it before returning. *)
Theorem httpGet_non200
  (W : Type) (h : Handler W) (w w1 w2 : W) (url : string)
  (resp : http.Response) (closed : option error) :
  h (http_Get url) w = ((Some resp, None), w1) ->
  http.StatusCode resp <> http.StatusOK ->
  h (Body_Close (http.Body resp)) w1 = (closed, w2) ->
  run h (httpGet url) w =
    (Returned ("", Some (fmt.Errorf "droplet metadata returned non-200 status code: %d"
                           [int_operand (http.StatusCode resp)])),
     w2, [http_Get url; Body_Close (http.Body resp)]).
Proof.
  intros Hget Hstatus Hclose. unfold httpGet. simpl. rewrite Hget. simpl.
  apply Z.eqb_neq in Hstatus. rewrite Hstatus. simpl. rewrite Hclose. reflexivity.
Qed.

Lemma httpGet_non200_witness :
  run scripted (httpGet dropletIDMetadataURL) outage =
    (Returned ("", Some (fmt.Errorf "droplet metadata returned non-200 status code: %d"
                           [int_operand 503])),
     outage, [http_Get dropletIDMetadataURL; Body_Close (http.body 1)]).
Proof.
  apply (@httpGet_non200 Script scripted outage outage outage dropletIDMetadataURL
           {| http.StatusCode := 503; http.Body := http.body 1 |} None).
  - reflexivity.
  - discriminate.
  - reflexivity.
Defined.

(** X3. When http.Get answers 200 and the body is read without error,
    httpGet returns the bytes of the body as a string, unchanged, and no
    error; it reads the body, then closes it, and what the close returns is
    dropped. *)
Theorem httpGet_body
  (W : Type) (h : Handler W) (w w1 w2 w3 : W) (url : string)
  (resp : http.Response) (bodyBytes : list byte) (closed : option error) :
  h (http_Get url) w = ((Some resp, None), w1) ->
  http.StatusCode resp = http.StatusOK ->
  h (ioutil_ReadAll (http.Body resp)) w1 = ((bodyBytes, None), w2) ->
  h (Body_Close (http.Body resp)) w2 = (closed, w3) ->
  run h (httpGet url) w =
    (Returned (string_of_list_byte bodyBytes, None), w3,
     [http_Get url; ioutil_ReadAll (http.Body resp); Body_Close (http.Body resp)]).
Proof.
  intros Hget Hstatus Hread Hclose. unfold httpGet. simpl. rewrite Hget. simpl.
  rewrite Hstatus. simpl. rewrite Hread. simpl. rewrite Hclose. reflexivity.
Qed.

Lemma httpGet_body_witness :
  run scripted (httpGet dropletIDMetadataURL) empty_answer =
    (Returned ("42", None), empty_answer,
     [http_Get dropletIDMetadataURL; ioutil_ReadAll (http.body 3);
      Body_Close (http.body 3)]).
Proof.
  apply (@httpGet_body Script scripted empty_answer empty_answer empty_answer
           empty_answer dropletIDMetadataURL
           {| http.StatusCode := 200; http.Body := http.body 3 |}
           ["4"%byte; "2"%byte] (Some (errorString "already closed"))).
  - reflexivity.
  - reflexivity.
  - reflexivity.
  - reflexivity.
Defined.

(** X4. When http.Get answers 200 and reading the body fails, httpGet
    returns the empty string and the read error: the bytes read so far are
    dropped, and the body is still closed. *)
Theorem httpGet_read_error
  (W : Type) (h : Handler W) (w w1 w2 w3 : W) (url : string)
  (resp : http.Response) (bodyBytes : list byte) (e : error) (closed : option error) :
  h (http_Get url) w = ((Some resp, None), w1) ->
  http.StatusCode resp = http.StatusOK ->
  h (ioutil_ReadAll (http.Body resp)) w1 = ((bodyBytes, Some e), w2) ->
  h (Body_Close (http.Body resp)) w2 = (closed, w3) ->
  run h (httpGet url) w =
    (Returned ("", Some e), w3,
     [http_Get url; ioutil_ReadAll (http.Body resp); Body_Close (http.Body resp)]).
Proof.
  intros Hget Hstatus Hread Hclose. unfold httpGet. simpl. rewrite Hget. simpl.
  rewrite Hstatus. simpl. rewrite Hread. simpl. rewrite Hclose. reflexivity.
Qed.

Lemma httpGet_read_error_witness :
  run scripted (httpGet dropletIDMetadataURL) truncated =
    (Returned ("", Some (errorString "unexpected EOF")), truncated,
     [http_Get dropletIDMetadataURL; ioutil_ReadAll (http.body 2);
      Body_Close (http.body 2)]).
Proof.
  apply (@httpGet_read_error Script scripted truncated truncated truncated truncated
           dropletIDMetadataURL
           {| http.StatusCode := 200; http.Body := http.body 2 |}
           ["4"%byte] (errorString "unexpected EOF")
           (Some (errorString "already closed"))).
  - reflexivity.
  - reflexivity.
  - reflexivity.
  - reflexivity.
Defined.

(** X5. In every run of httpGet, whatever the endpoint does: the first call
    is the GET of the given url; no call goes to the godo client; the body
    is closed exactly when http.Get handed over a response without error,
    then once, as the last call, and it is the body of that response; and a
    returned error always comes with the empty string. *)
Theorem httpGet_closes_body
  (W : Type) (h : Handler W) (w w' : W) (url : string)
  (o : Outcome (string * option error)) (t : list Request) :
  run h (httpGet url) w = (o, w', t) ->
  hd_error t = Some (http_Get url)
  /\ Forall (fun r => is_client_call r = false) t
  /\ match fst (h (http_Get url) w) with
     | (Some resp, None) =>
         length (filter is_close t) = 1%nat
         /\ last t (http_Get url) = Body_Close (http.Body resp)
     | _ => filter is_close t = []
     end
  /\ (forall s e, o = Returned (s, Some e) -> s = "").
Proof.
  unfold httpGet. simpl.
  destruct (h (http_Get url) w) as [[resp [e |]] w1]; simpl.
  - intros H. inversion H. subst. repeat split.
    + repeat constructor.
    + destruct resp; reflexivity.
    + intros s e' Ho. inversion Ho. reflexivity.
  - destruct resp as [resp |]; simpl.
    + destruct (negb (http.StatusCode resp =? http.StatusOK)); simpl.
      * destruct (h (Body_Close (http.Body resp)) w1) as [closed w2].
        intros H. inversion H. subst. repeat split.
        -- repeat constructor.
        -- intros s e' Ho. inversion Ho. reflexivity.
      * destruct (h (ioutil_ReadAll (http.Body resp)) w1) as [[bodyBytes [e |]] w2];
          simpl;
          destruct (h (Body_Close (http.Body resp)) w2) as [closed w3];
          intros H; inversion H; subst; repeat split;
          try (repeat constructor);
          intros s e' Ho; inversion Ho; reflexivity.
    + intros H. inversion H. subst. repeat split.
      * repeat constructor.
      * intros s e' Ho. discriminate.
Qed.

Lemma httpGet_closes_body_witness :
  hd_error [http_Get dropletIDMetadataURL; ioutil_ReadAll (http.body 2);
            Body_Close (http.body 2)] = Some (http_Get dropletIDMetadataURL)
  /\ Forall (fun r => is_client_call r = false)
       [http_Get dropletIDMetadataURL; ioutil_ReadAll (http.body 2);
        Body_Close (http.body 2)]
  /\ (length (filter is_close
                [http_Get dropletIDMetadataURL; ioutil_ReadAll (http.body 2);
                 Body_Close (http.body 2)]) = 1%nat
      /\ last [http_Get dropletIDMetadataURL; ioutil_ReadAll (http.body 2);
               Body_Close (http.body 2)] (http_Get dropletIDMetadataURL)
         = Body_Close (http.body 2))
  /\ (forall s e,
        Returned ("", Some (errorString "unexpected EOF")) = Returned (s, Some e) ->
        s = "").
Proof.
  apply (@httpGet_closes_body Script scripted truncated truncated
           dropletIDMetadataURL
           (Returned ("", Some (errorString "unexpected EOF")))
           [http_Get dropletIDMetadataURL; ioutil_ReadAll (http.body 2);
            Body_Close (http.body 2)]).
  reflexivity.
Defined.

(** *** NodeAddresses: the addresses of the calling instance *)

Lemma NodeAddresses_run (W : Type) (h : Handler W) (w : W) (name : types.NodeName) :
  run h (NodeAddresses name) w =
  match run h dropletID w with
  | (Returned (_, Some e), w1, t1) => (Returned ([], Some e), w1, t1)
  | (Returned (selfDropletID, None), w1, t1) =>
      let '(o, w2, t2) := run h (NodeAddressesByProviderID selfDropletID) w1 in
      (o, w2, t1 ++ t2)
  | (Panicked msg, w1, t1) => (Panicked msg, w1, t1)
  end.
Proof.
  unfold NodeAddresses. rewrite run_bind.
  destruct (run h dropletID w) as [[[[selfDropletID [e |]] | msg] w1] t1]; simpl.
  - rewrite app_nil_r. reflexivity.
  - reflexivity.
  - reflexivity.
Qed.

Lemma dropletID_fetched
  (W : Type) (h : Handler W) (w w1 w2 w3 : W)
  (resp : http.Response) (bodyBytes : list byte) (closed : option error) :
  h (http_Get dropletIDMetadataURL) w = ((Some resp, None), w1) ->
  http.StatusCode resp = http.StatusOK ->
  h (ioutil_ReadAll (http.Body resp)) w1 = ((bodyBytes, None), w2) ->
  h (Body_Close (http.Body resp)) w2 = (closed, w3) ->
  run h dropletID w =
    (Returned (string_of_list_byte bodyBytes, None), w3,
     [http_Get dropletIDMetadataURL; ioutil_ReadAll (http.Body resp);
      Body_Close (http.Body resp)]).
Proof.
  intros Hget Hstatus Hread Hclose. unfold dropletID, httpGet. simpl.
  rewrite Hget. simpl. rewrite Hstatus. simpl. rewrite Hread. simpl.
  rewrite Hclose. reflexivity.
Qed.

Lemma httpGet_no_client_call (W : Type) (h : Handler W) (w : W) (url : string) :
  Forall (fun r => is_client_call r = false) (snd (run h (httpGet url) w)).
Proof.
  unfold httpGet. simpl.
  destruct (h (http_Get url) w) as [[resp [e |]] w1]; simpl;
    [repeat constructor |].
  destruct resp as [resp |]; simpl; [| repeat constructor].
  destruct (negb (http.StatusCode resp =? http.StatusOK)); simpl.
  - destruct (h (Body_Close (http.Body resp)) w1) as [closed w2]. repeat constructor.
  - destruct (h (ioutil_ReadAll (http.Body resp)) w1) as [[bodyBytes [e |]] w2];
      simpl;
      destruct (h (Body_Close (http.Body resp)) w2) as [closed w3];
      repeat constructor.
Qed.

(** X6. When the fetch of the instance's own id fails, for whatever reason,
    NodeAddresses returns no address and the error of the fetch, and has not
    called the godo client at all. *)
Theorem NodeAddresses_metadata_failure
  (W : Type) (h : Handler W) (w w1 : W) (t1 : list Request)
  (name : types.NodeName) (s : string) (e : error) :
  run h dropletID w = (Returned (s, Some e), w1, t1) ->
  run h (NodeAddresses name) w = (Returned ([], Some e), w1, t1)
  /\ Forall (fun r => is_client_call r = false) t1.
Proof.
  intros Hfetch. split.
  - rewrite NodeAddresses_run, Hfetch. reflexivity.
  - pose proof (httpGet_no_client_call h w dropletIDMetadataURL) as Hcalls.
    unfold dropletID in Hfetch. rewrite Hfetch in Hcalls. exact Hcalls.
Qed.

Lemma NodeAddresses_metadata_failure_witness :
  run scripted (NodeAddresses "node-a") outage =
    (Returned ([], Some (fmt.Errorf "droplet metadata returned non-200 status code: %d"
                           [int_operand 503])),
     outage, [http_Get dropletIDMetadataURL; Body_Close (http.body 1)])
  /\ Forall (fun r => is_client_call r = false)
       [http_Get dropletIDMetadataURL; Body_Close (http.body 1)].
Proof.
  apply (@NodeAddresses_metadata_failure Script scripted outage outage
           [http_Get dropletIDMetadataURL; Body_Close (http.body 1)] "node-a" "").
  reflexivity.
Defined.

(** X7. The body served by the metadata endpoint is used as the provider id
    byte for byte, without trimming: when it is not an optional sign
    followed by decimal digits (a trailing newline is enough), NodeAddresses
    fails with the invalid-id error after the fetch, without calling the
    godo client. *)
Theorem NodeAddresses_body_not_numeric
  (W : Type) (h : Handler W) (w w1 w2 w3 : W) (name : types.NodeName)
  (resp : http.Response) (bodyBytes : list byte) (closed : option error) :
  h (http_Get dropletIDMetadataURL) w = ((Some resp, None), w1) ->
  http.StatusCode resp = http.StatusOK ->
  h (ioutil_ReadAll (http.Body resp)) w1 = ((bodyBytes, None), w2) ->
  h (Body_Close (http.Body resp)) w2 = (closed, w3) ->
  integer_syntax (string_of_list_byte bodyBytes) = false ->
  exists e,
    InvalidID e = true
    /\ run h (NodeAddresses name) w =
         (Returned ([], Some e), w3,
          [http_Get dropletIDMetadataURL; ioutil_ReadAll (http.Body resp);
           Body_Close (http.Body resp)]).
Proof.
  intros Hget Hstatus Hread Hclose Hsyn.
  rewrite NodeAddresses_run, (dropletID_fetched h w Hget Hstatus Hread Hclose).
  rewrite (@NodeAddressesByProviderID_not_a_number _ Hsyn). simpl.
  eexists. split; [| reflexivity].
  pose proof (@Atoi_bad_syntax _ Hsyn) as Herr.
  destruct (snd (strconv.Atoi (string_of_list_byte bodyBytes)));
    [reflexivity | congruence].
Qed.

Lemma NodeAddresses_body_not_numeric_witness :
  exists e,
    InvalidID e = true
    /\ run cloud (NodeAddresses "node-a") fleet_newline =
         (Returned ([], Some e), fleet_newline,
          [http_Get dropletIDMetadataURL; ioutil_ReadAll (http.body 0);
           Body_Close (http.body 0)]).
Proof.
  apply (@NodeAddresses_body_not_numeric Cloud cloud fleet_newline fleet_newline
           fleet_newline fleet_newline "node-a"
           {| http.StatusCode := 200; http.Body := http.body 0 |}
           ["4"%byte; "2"%byte; x0a] None).
  - reflexivity.
  - reflexivity.
  - reflexivity.
  - reflexivity.
  - reflexivity.
Defined.

(** X8. When the metadata endpoint serves an id that converts, and the
    client answers 200 for it with a droplet whose private and public IPv4
    are non-empty, NodeAddresses returns the three addresses of that droplet,
    whatever the node name; its calls are, in order, the GET of the
    metadata url, the read and the close of the body, and one Droplets.Get
    with the converted id. *)
Theorem NodeAddresses_end_to_end
  (W : Type) (h : Handler W) (w w1 w2 w3 w4 : W) (name : types.NodeName)
  (resp : http.Response) (bodyBytes : list byte) (closed : option error)
  (intId : Z) (d : godo.Droplet) (apiResp : godo.Response) :
  h (http_Get dropletIDMetadataURL) w = ((Some resp, None), w1) ->
  http.StatusCode resp = http.StatusOK ->
  h (ioutil_ReadAll (http.Body resp)) w1 = ((bodyBytes, None), w2) ->
  h (Body_Close (http.Body resp)) w2 = (closed, w3) ->
  strconv.Atoi (string_of_list_byte bodyBytes) = (intId, None) ->
  h (Droplets_Get context.TODO intId) w3 = ((Some d, Some apiResp, None), w4) ->
  godo.StatusCode apiResp = http.StatusOK ->
  fst (godo.PrivateIPv4 d) <> "" ->
  fst (godo.PublicIPv4 d) <> "" ->
  run h (NodeAddresses name) w =
    (Returned
       ([ {| v1.Type_ := v1.NodeHostName; v1.Address := godo.Name d |};
          {| v1.Type_ := v1.NodeInternalIP; v1.Address := fst (godo.PrivateIPv4 d) |};
          {| v1.Type_ := v1.NodeExternalIP; v1.Address := fst (godo.PublicIPv4 d) |} ],
        None),
     w4,
     [http_Get dropletIDMetadataURL; ioutil_ReadAll (http.Body resp);
      Body_Close (http.Body resp); Droplets_Get context.TODO intId]).
Proof.
  intros Hget Hstatus Hread Hclose Hid Hapi Hok Hpriv Hpub.
  rewrite NodeAddresses_run, (dropletID_fetched h w Hget Hstatus Hread Hclose).
  rewrite NodeAddressesByProviderID_run.
  rewrite (@dropletById_got W h w3 w4 context.TODO _ intId (Some d) apiResp
             Hid Hapi Hok).
  rewrite (addresses_of_complete d Hpriv Hpub). reflexivity.
Qed.

Lemma NodeAddresses_end_to_end_witness :
  run cloud (NodeAddresses "node-b") fleet =
    (Returned
       ([ {| v1.Type_ := "Hostname"; v1.Address := "node-a" |};
          {| v1.Type_ := "InternalIP"; v1.Address := "10.0.0.5" |};
          {| v1.Type_ := "ExternalIP"; v1.Address := "203.0.113.9" |} ],
        None),
     fleet,
     [http_Get dropletIDMetadataURL; ioutil_ReadAll (http.body 0);
      Body_Close (http.body 0); Droplets_Get context.TODO 42]).
Proof.
  apply (@NodeAddresses_end_to_end Cloud cloud fleet fleet fleet fleet fleet "node-b"
           {| http.StatusCode := 200; http.Body := http.body 0 |}
           ["4"%byte; "2"%byte] None 42 node_a {| godo.StatusCode := 200 |}).
  - reflexivity.
  - reflexivity.
  - reflexivity.
  - reflexivity.
  - reflexivity.
  - reflexivity.
  - reflexivity.
  - simpl. discriminate.
  - simpl. discriminate.
Defined.

(** *** The lookup by provider id and the operations on it *)

Lemma dropletById_client_error
  (W : Type) (h : Handler W) (w w' : W) (ctx : context.Context) (id : string)
  (intId : Z) (droplet : option godo.Droplet) (resp : option godo.Response) (e : error) :
  strconv.Atoi id = (intId, None) ->
  h (Droplets_Get ctx intId) w = ((droplet, resp, Some e), w') ->
  run h (dropletById ctx id) w = (Returned (None, Some e), w', [Droplets_Get ctx intId]).
Proof.
  intros Hid Hget. unfold dropletById. rewrite Hid. simpl. rewrite Hget. reflexivity.
Qed.

Lemma dropletById_non200
  (W : Type) (h : Handler W) (w w' : W) (ctx : context.Context) (id : string)
  (intId : Z) (droplet : option godo.Droplet) (resp : godo.Response) :
  strconv.Atoi id = (intId, None) ->
  h (Droplets_Get ctx intId) w = ((droplet, Some resp, None), w') ->
  godo.StatusCode resp <> http.StatusOK ->
  run h (dropletById ctx id) w =
    (Returned (None, Some (fmt.Errorf "DO API returned non-200 status code: %d"
                             [int_operand (godo.StatusCode resp)])),
     w', [Droplets_Get ctx intId]).
Proof.
  intros Hid Hget Hstatus. unfold dropletById. rewrite Hid. simpl. rewrite Hget. simpl.
  apply Z.eqb_neq in Hstatus. rewrite Hstatus. reflexivity.
Qed.

(** X9. dropletById returns a droplet without error in exactly one
    situation: the id converts to an int, the client's Get for that int
    comes back with this droplet, a response of status 200 and no error;
    the run is then that single call. *)
Theorem dropletById_succeeds_iff
  (W : Type) (h : Handler W) (w w' : W) (ctx : context.Context) (id : string)
  (d : godo.Droplet) (t : list Request) :
  run h (dropletById ctx id) w = (Returned (Some d, None), w', t)
  <->
  exists intId resp,
    strconv.Atoi id = (intId, None)
    /\ h (Droplets_Get ctx intId) w = ((Some d, Some resp, None), w')
    /\ godo.StatusCode resp = http.StatusOK
    /\ t = [Droplets_Get ctx intId].
Proof.
  split.
  - unfold dropletById.
    destruct (strconv.Atoi id) as [intId [e |]] eqn:Hid; simpl; [discriminate |].
    destruct (h (Droplets_Get ctx intId) w) as [[[droplet resp] [e |]] w1] eqn:Hget;
      simpl; [discriminate |].
    destruct resp as [resp |]; simpl; [| discriminate].
    destruct (godo.StatusCode resp =? http.StatusOK) eqn:Hstatus; simpl;
      [| discriminate].
    intros H. inversion H. subst.
    exists intId, resp. apply Z.eqb_eq in Hstatus. auto.
  - intros [intId [resp [Hid [Hget [Hstatus Ht]]]]]. subst t.
    apply (@dropletById_got W h w w' ctx id intId (Some d) resp Hid Hget Hstatus).
Qed.

(** X10. When the id converts and the client's Get returns an error, the
    two operations by provider id return that error unchanged, with no
    address and the empty type, after this single call; the droplet and the
    response that came with the error are not looked at. *)
Theorem by_id_client_error
  (W : Type) (h : Handler W) (w w' : W) (providerId : string) (intId : Z)
  (droplet : option godo.Droplet) (resp : option godo.Response) (e : error) :
  strconv.Atoi providerId = (intId, None) ->
  h (Droplets_Get context.TODO intId) w = ((droplet, resp, Some e), w') ->
  run h (NodeAddressesByProviderID providerId) w =
    (Returned ([], Some e), w', [Droplets_Get context.TODO intId])
  /\ run h (InstanceTypeByProviderID providerId) w =
       (Returned ("", Some e), w', [Droplets_Get context.TODO intId]).
Proof.
  intros Hid Hget.
  rewrite NodeAddressesByProviderID_run, InstanceTypeByProviderID_run.
  rewrite (@dropletById_client_error W h w w' context.TODO providerId intId
             droplet resp e Hid Hget).
  split; reflexivity.
Qed.

Lemma by_id_client_error_witness :
  run scripted (NodeAddressesByProviderID "42") refused =
    (Returned ([], Some (errorString "connection refused")), refused,
     [Droplets_Get context.TODO 42])
  /\ run scripted (InstanceTypeByProviderID "42") refused =
       (Returned ("", Some (errorString "connection refused")), refused,
        [Droplets_Get context.TODO 42]).
Proof.
  apply (@by_id_client_error Script scripted refused refused "42" 42
           (Some node_a) (Some {| godo.StatusCode := 200 |})
           (errorString "connection refused")).
  - reflexivity.
  - reflexivity.
Defined.

(** X11. When the id converts and the client's Get answers without error
    but with a status other than 200, the two operations by provider id
    fail with an error carrying the status code, even if a droplet came
    with the answer. *)
Theorem by_id_non200
  (W : Type) (h : Handler W) (w w' : W) (providerId : string) (intId : Z)
  (droplet : option godo.Droplet) (resp : godo.Response) :
  strconv.Atoi providerId = (intId, None) ->
  h (Droplets_Get context.TODO intId) w = ((droplet, Some resp, None), w') ->
  godo.StatusCode resp <> http.StatusOK ->
  run h (NodeAddressesByProviderID providerId) w =
    (Returned ([], Some (fmt.Errorf "DO API returned non-200 status code: %d"
                           [int_operand (godo.StatusCode resp)])),
     w', [Droplets_Get context.TODO intId])
  /\ run h (InstanceTypeByProviderID providerId) w =
       (Returned ("", Some (fmt.Errorf "DO API returned non-200 status code: %d"
                              [int_operand (godo.StatusCode resp)])),
        w', [Droplets_Get context.TODO intId]).
Proof.
  intros Hid Hget Hstatus.
  rewrite NodeAddressesByProviderID_run, InstanceTypeByProviderID_run.
  rewrite (@dropletById_non200 W h w w' context.TODO providerId intId
             droplet resp Hid Hget Hstatus).
  split; reflexivity.
Qed.

Lemma by_id_non200_witness :
  run scripted (NodeAddressesByProviderID "42") outage =
    (Returned ([], Some (fmt.Errorf "DO API returned non-200 status code: %d"
                           [int_operand 503])),
     outage, [Droplets_Get context.TODO 42])
  /\ run scripted (InstanceTypeByProviderID "42") outage =
       (Returned ("", Some (fmt.Errorf "DO API returned non-200 status code: %d"
                              [int_operand 503])),
        outage, [Droplets_Get context.TODO 42]).
Proof.
  apply (@by_id_non200 Script scripted outage outage "42" 42
           (Some node_a) {| godo.StatusCode := 503 |}).
  - reflexivity.
  - reflexivity.
  - discriminate.
Defined.

(** X12. When the id converts and the client's Get answers 200 with a
    droplet, InstanceTypeByProviderID returns the size slug of that droplet
    after this single call; the droplet's networks play no part. *)
Theorem InstanceTypeByProviderID_size
  (W : Type) (h : Handler W) (w w' : W) (providerId : string) (intId : Z)
  (d : godo.Droplet) (resp : godo.Response) :
  strconv.Atoi providerId = (intId, None) ->
  h (Droplets_Get context.TODO intId) w = ((Some d, Some resp, None), w') ->
  godo.StatusCode resp = http.StatusOK ->
  run h (InstanceTypeByProviderID providerId) w =
    (Returned (godo.SizeSlug d, None), w', [Droplets_Get context.TODO intId]).
Proof.
  intros Hid Hget Hstatus.
  rewrite InstanceTypeByProviderID_run.
  rewrite (@dropletById_got W h w w' context.TODO providerId intId (Some d) resp
             Hid Hget Hstatus).
  reflexivity.
Qed.

(** The droplet without network information has a type. *)
Lemma InstanceTypeByProviderID_size_witness :
  run cloud (InstanceTypeByProviderID "+44") fleet =
    (Returned ("1gb", None), fleet, [Droplets_Get context.TODO 44]).
Proof.
  apply (@InstanceTypeByProviderID_size Cloud cloud fleet fleet "+44" 44 node_c
           {| godo.StatusCode := 200 |}).
  - reflexivity.
  - reflexivity.
  - reflexivity.
Defined.

(** X13. A provider id that strconv.Atoi does not convert (the empty string
    among them) makes InstanceTypeByProviderID return the empty type and the
    invalid-id error; the program is a bare return, so no call is made and
    the world is left untouched under every behaviour of the client. *)
Theorem InstanceTypeByProviderID_invalid_id (providerId : string) :
  snd (strconv.Atoi providerId) <> None ->
  exists e,
    InvalidID e = true
    /\ InstanceTypeByProviderID providerId = Ret ("", Some e)
    /\ forall (W : Type) (h : Handler W) (w : W),
         run h (InstanceTypeByProviderID providerId) w = (Returned ("", Some e), w, []).
Proof.
  intros Hparse.
  assert (Hprog : InstanceTypeByProviderID providerId =
                  Ret ("", Some (fmt.Errorf "error converting droplet id to string: %v"
                                   [err_operand (snd (strconv.Atoi providerId))]))).
  { unfold InstanceTypeByProviderID.
    rewrite (@dropletById_conversion_error context.TODO providerId Hparse).
    reflexivity. }
  eexists. split; [| split; [exact Hprog |]].
  - destruct (snd (strconv.Atoi providerId)); [reflexivity | congruence].
  - intros W h w. rewrite Hprog. reflexivity.
Qed.

Lemma InstanceTypeByProviderID_invalid_id_witness :
  exists e,
    InvalidID e = true
    /\ InstanceTypeByProviderID "" = Ret ("", Some e)
    /\ forall (W : Type) (h : Handler W) (w : W),
         run h (InstanceTypeByProviderID "") w = (Returned ("", Some e), w, []).
Proof.
  apply (InstanceTypeByProviderID_invalid_id ""). simpl. discriminate.
Defined.

(** X14. Under every behaviour of the client, the two operations by
    provider id make the calls of their lookup and no other, and leave the
    world as the lookup left it: no call when the id does not convert, and
    otherwise exactly one Droplets.Get, for the converted id. *)
Theorem by_id_at_most_one_call
  (W : Type) (h : Handler W) (w : W) (providerId : string) :
  snd (run h (dropletById context.TODO providerId) w) =
    match strconv.Atoi providerId with
    | (intId, None) => [Droplets_Get context.TODO intId]
    | (_, Some _) => []
    end
  /\ snd (run h (NodeAddressesByProviderID providerId) w) =
       snd (run h (dropletById context.TODO providerId) w)
  /\ snd (fst (run h (NodeAddressesByProviderID providerId) w)) =
       snd (fst (run h (dropletById context.TODO providerId) w))
  /\ snd (run h (InstanceTypeByProviderID providerId) w) =
       snd (run h (dropletById context.TODO providerId) w)
  /\ snd (fst (run h (InstanceTypeByProviderID providerId) w)) =
       snd (fst (run h (dropletById context.TODO providerId) w)).
Proof.
  split.
  - unfold dropletById.
    destruct (strconv.Atoi providerId) as [intId [e |]]; simpl; [reflexivity |].
    destruct (h (Droplets_Get context.TODO intId) w) as [[[droplet resp] [e |]] w1];
      simpl; [reflexivity |].
    destruct resp as [resp |]; simpl; [| reflexivity].
    destruct (negb (godo.StatusCode resp =? http.StatusOK)); reflexivity.
  - rewrite NodeAddressesByProviderID_run, InstanceTypeByProviderID_run.
    destruct (run h (dropletById context.TODO providerId) w)
      as [[[[[d |] [e |]] | msg] w1] t1]; simpl; auto.
Qed.

(** X15. dropletById does not check the droplet it gets: when the client
    answers 200 without error and without a droplet, the lookup returns
    neither a droplet nor an error, and the two operations by provider id
    then stop with the runtime panic of a nil pointer, after the single
    call. *)
Theorem by_id_nil_droplet_panics
  (W : Type) (h : Handler W) (w w' : W) (providerId : string) (intId : Z)
  (resp : godo.Response) :
  strconv.Atoi providerId = (intId, None) ->
  h (Droplets_Get context.TODO intId) w = ((None, Some resp, None), w') ->
  godo.StatusCode resp = http.StatusOK ->
  run h (dropletById context.TODO providerId) w =
    (Returned (None, None), w', [Droplets_Get context.TODO intId])
  /\ exists msg,
       run h (NodeAddressesByProviderID providerId) w =
         (Panicked msg, w', [Droplets_Get context.TODO intId])
       /\ run h (InstanceTypeByProviderID providerId) w =
            (Panicked msg, w', [Droplets_Get context.TODO intId]).
Proof.
  intros Hid Hget Hstatus.
  pose proof (@dropletById_got W h w w' context.TODO providerId intId None resp
                Hid Hget Hstatus) as Hlookup.
  split; [exact Hlookup |].
  rewrite NodeAddressesByProviderID_run, InstanceTypeByProviderID_run, Hlookup.
  eexists. split; reflexivity.
Qed.

Lemma by_id_nil_droplet_panics_witness :
  run scripted (dropletById context.TODO "42") empty_answer =
    (Returned (None, None), empty_answer, [Droplets_Get context.TODO 42])
  /\ exists msg,
       run scripted (NodeAddressesByProviderID "42") empty_answer =
         (Panicked msg, empty_answer, [Droplets_Get context.TODO 42])
       /\ run scripted (InstanceTypeByProviderID "42") empty_answer =
            (Panicked msg, empty_answer, [Droplets_Get context.TODO 42]).
Proof.
  apply (@by_id_nil_droplet_panics Script scripted empty_answer empty_answer "42" 42
           {| godo.StatusCode := 200 |}).
  - reflexivity.
  - reflexivity.
  - reflexivity.
Defined.

(** *** The lookup by node name and the operations on it *)

Lemma dropletByName_inv
  (W : Type) (h : Handler W) (w w' : W) (nodeName : types.NodeName)
  (d : godo.Droplet) (err : option error) (t : list Request) :
  run h (dropletByName context.TODO nodeName) w = (Returned (Some d, err), w', t) ->
  err = None
  /\ exists droplets resp before after,
       h list_all w = ((droplets, Some resp, None), w')
       /\ godo.StatusCode resp = http.StatusOK
       /\ droplets = before ++ d :: after
       /\ Forall (fun x => godo.Name x <> nodeName) before
       /\ godo.Name d = nodeName
       /\ t = [list_all].
Proof.
  unfold dropletByName, list_all. simpl.
  destruct (h (Droplets_List context.TODO {| godo.Page := 0; godo.PerPage := 0 |}) w)
    as [[[droplets resp] [e |]] w1]; simpl; [discriminate |].
  destruct resp as [resp |]; simpl; [| discriminate].
  destruct (godo.StatusCode resp =? http.StatusOK) eqn:Hstatus; simpl; [| discriminate].
  destruct (range_droplets droplets nodeName) as [found |] eqn:Hfound; simpl;
    [| discriminate].
  intros H. inversion H. subst. split; [reflexivity |].
  destruct (range_droplets_Some _ _ Hfound) as [before [after [Hsplit [Hbefore Hd]]]].
  exists droplets, resp, before, after. apply Z.eqb_eq in Hstatus.
  repeat split; assumption || reflexivity.
Qed.

Lemma dropletByName_client_error
  (W : Type) (h : Handler W) (w w' : W) (nodeName : types.NodeName)
  (droplets : list godo.Droplet) (resp : option godo.Response) (e : error) :
  h list_all w = ((droplets, resp, Some e), w') ->
  run h (dropletByName context.TODO nodeName) w =
    (Returned (None, Some e), w', [list_all]).
Proof.
  unfold list_all. intros Hlist. unfold dropletByName. simpl. rewrite Hlist. reflexivity.
Qed.

Lemma dropletByName_non200
  (W : Type) (h : Handler W) (w w' : W) (nodeName : types.NodeName)
  (droplets : list godo.Droplet) (resp : godo.Response) :
  h list_all w = ((droplets, Some resp, None), w') ->
  godo.StatusCode resp <> http.StatusOK ->
  run h (dropletByName context.TODO nodeName) w =
    (Returned (None, Some (fmt.Errorf "DO API returned non-200 status code: %d"
                             [int_operand (godo.StatusCode resp)])),
     w', [list_all]).
Proof.
  unfold list_all. intros Hlist Hstatus. unfold dropletByName. simpl. rewrite Hlist. simpl.
  apply Z.eqb_neq in Hstatus. rewrite Hstatus. reflexivity.
Qed.

(** The decimal string of any integer is an optional minus sign followed by
    digits, and writes that integer. *)
Lemma Itoa_decimal (i : Z) :
  integer_syntax (strconv.Itoa i) = true /\ integer_value (strconv.Itoa i) = i.
Proof.
  destruct i as [| p | p]; unfold strconv.Itoa; cbn [Z.to_int NilZero.string_of_int].
  - split; reflexivity.
  - destruct (string_of_to_uint p) as [-> [Hne [Hdig Hval]]].
    destruct (NilEmpty.string_of_uint (Pos.to_uint p)) as [| c rest] eqn:E;
      [congruence |].
    unfold integer_syntax, integer_value.
    assert (Hsign : Ascii.eqb c "+" || Ascii.eqb c "-" = false).
    { cbn [all_digits] in Hdig.
      destruct (strconv.digit c) as [d |] eqn:Hd; [| discriminate].
      apply (digit_not_sign _ Hd). }
    rewrite Hsign. apply orb_false_iff in Hsign. destruct Hsign as [-> ->].
    split; assumption.
  - destruct (string_of_to_uint p) as [-> [Hne [Hdig Hval]]].
    unfold integer_syntax, integer_value.
    change (Ascii.eqb "-" "+" || Ascii.eqb "-" "-") with true.
    change (Ascii.eqb "-" "-") with true. cbv iota.
    rewrite Hdig, Hval. apply String.eqb_neq in Hne. rewrite Hne.
    split; reflexivity.
Qed.

(** X16. Whatever the client does, dropletByName never returns a droplet
    together with an error; and a droplet it returns was listed by the
    client with status 200 and no error, bears the node name, and is the
    first of the list to do so. *)
Theorem dropletByName_returns_first_match
  (W : Type) (h : Handler W) (w w' : W) (nodeName : types.NodeName)
  (droplet : option godo.Droplet) (err : option error) (t : list Request) :
  run h (dropletByName context.TODO nodeName) w = (Returned (droplet, err), w', t) ->
  (forall d, droplet = Some d ->
     err = None
     /\ exists droplets resp before after,
          h list_all w = ((droplets, Some resp, None), w')
          /\ godo.StatusCode resp = http.StatusOK
          /\ droplets = before ++ d :: after
          /\ Forall (fun x => godo.Name x <> nodeName) before
          /\ godo.Name d = nodeName)
  /\ (err = None -> droplet <> None).
Proof.
  intros Hrun. split.
  - intros d Hd. subst droplet.
    destruct (dropletByName_inv h w nodeName Hrun)
      as [Herr [droplets [resp [before [after [Hlist [Hstatus [Hsplit [Hbefore [Hname _]]]]]]]]]].
    split; [exact Herr |]. exists droplets, resp, before, after.
    repeat split; assumption.
  - intros Herr. subst err. revert Hrun.
    unfold dropletByName. simpl.
    destruct (h (Droplets_List context.TODO {| godo.Page := 0; godo.PerPage := 0 |}) w)
      as [[[droplets resp] [e |]] w1]; simpl; [discriminate |].
    destruct resp as [resp |]; simpl; [| discriminate].
    destruct (negb (godo.StatusCode resp =? http.StatusOK)); simpl; [discriminate |].
    destruct (range_droplets droplets nodeName); simpl; [| discriminate].
    intros H. inversion H. discriminate.
Qed.

Lemma dropletByName_returns_first_match_witness :
  (forall d, Some node_b = Some d ->
     @None error = None
     /\ exists droplets resp before after,
          cloud list_all fleet = ((droplets, Some resp, None), fleet)
          /\ godo.StatusCode resp = http.StatusOK
          /\ droplets = before ++ d :: after
          /\ Forall (fun x => godo.Name x <> "node-b") before
          /\ godo.Name d = "node-b")
  /\ (@None error = None -> Some node_b <> None).
Proof.
  apply (@dropletByName_returns_first_match Cloud cloud fleet fleet "node-b"
           (Some node_b) None [list_all]).
  reflexivity.
Defined.

(** X17. When the client's List returns an error, InstanceID, ExternalID
    and InstanceType return the empty string and that error unchanged, after
    this single call; the droplets and the response that came with the error
    are not looked at, even if a droplet of that name is among them. *)
Theorem by_name_client_error
  (W : Type) (h : Handler W) (w w' : W) (name : types.NodeName)
  (droplets : list godo.Droplet) (resp : option godo.Response) (e : error) :
  h list_all w = ((droplets, resp, Some e), w') ->
  run h (InstanceID name) w = (Returned ("", Some e), w', [list_all])
  /\ run h (ExternalID name) w = (Returned ("", Some e), w', [list_all])
  /\ run h (InstanceType name) w = (Returned ("", Some e), w', [list_all]).
Proof.
  intros Hlist. unfold ExternalID.
  rewrite InstanceID_run, InstanceType_run.
  rewrite (dropletByName_client_error h w name Hlist). auto.
Qed.

Lemma by_name_client_error_witness :
  run scripted (InstanceID "node-a") refused =
    (Returned ("", Some (errorString "connection refused")), refused, [list_all])
  /\ run scripted (ExternalID "node-a") refused =
       (Returned ("", Some (errorString "connection refused")), refused, [list_all])
  /\ run scripted (InstanceType "node-a") refused =
       (Returned ("", Some (errorString "connection refused")), refused, [list_all]).
Proof.
  apply (@by_name_client_error Script scripted refused refused "node-a"
           [node_a] (Some {| godo.StatusCode := 200 |})
           (errorString "connection refused")).
  reflexivity.
Defined.

(** X18. When the client's List answers without error but with a status
    other than 200, InstanceID, ExternalID and InstanceType fail with an
    error carrying the status code, whatever was listed; this error is not
    cloudprovider.InstanceNotFound, even when the list is empty. *)
Theorem by_name_non200
  (W : Type) (h : Handler W) (w w' : W) (name : types.NodeName)
  (droplets : list godo.Droplet) (resp : godo.Response) :
  h list_all w = ((droplets, Some resp, None), w') ->
  godo.StatusCode resp <> http.StatusOK ->
  exists e,
    e = fmt.Errorf "DO API returned non-200 status code: %d"
          [int_operand (godo.StatusCode resp)]
    /\ e <> cloudprovider.InstanceNotFound
    /\ run h (InstanceID name) w = (Returned ("", Some e), w', [list_all])
    /\ run h (ExternalID name) w = (Returned ("", Some e), w', [list_all])
    /\ run h (InstanceType name) w = (Returned ("", Some e), w', [list_all]).
Proof.
  intros Hlist Hstatus. unfold ExternalID.
  rewrite InstanceID_run, InstanceType_run.
  rewrite (dropletByName_non200 h w name Hlist Hstatus).
  eexists. split; [reflexivity |]. split; [discriminate | auto].
Qed.

Lemma by_name_non200_witness :
  exists e,
    e = fmt.Errorf "DO API returned non-200 status code: %d" [int_operand 503]
    /\ e <> cloudprovider.InstanceNotFound
    /\ run scripted (InstanceID "node-a") outage = (Returned ("", Some e), outage, [list_all])
    /\ run scripted (ExternalID "node-a") outage = (Returned ("", Some e), outage, [list_all])
    /\ run scripted (InstanceType "node-a") outage =
         (Returned ("", Some e), outage, [list_all]).
Proof.
  apply (@by_name_non200 Script scripted outage outage "node-a" []
           {| godo.StatusCode := 503 |}).
  - reflexivity.
  - discriminate.
Defined.

(** X19. When the client lists droplets with status 200 and no error,
    InstanceType returns the size slug of the first listed droplet whose
    name is the node name, and fails with InstanceNotFound when no listed
    droplet has that name. *)
Theorem InstanceType_first_match
  (W : Type) (h : Handler W) (w w' : W) (name : types.NodeName)
  (droplets : list godo.Droplet) (resp : godo.Response) :
  h list_all w = ((droplets, Some resp, None), w') ->
  godo.StatusCode resp = http.StatusOK ->
  (forall before d after,
     droplets = before ++ d :: after ->
     Forall (fun x => godo.Name x <> name) before ->
     godo.Name d = name ->
     run h (InstanceType name) w = (Returned (godo.SizeSlug d, None), w', [list_all]))
  /\
  (Forall (fun x => godo.Name x <> name) droplets ->
   run h (InstanceType name) w =
     (Returned ("", Some cloudprovider.InstanceNotFound), w', [list_all])).
Proof.
  unfold list_all. intros Hlist Hstatus. split.
  - intros before d after Hsplit Hbefore Hd.
    rewrite InstanceType_run, (dropletByName_listed h w name Hlist Hstatus).
    rewrite Hsplit, (@range_droplets_first before after d name Hbefore Hd).
    reflexivity.
  - intros Hnone.
    rewrite InstanceType_run, (dropletByName_listed h w name Hlist Hstatus).
    rewrite (@range_droplets_none droplets name Hnone). reflexivity.
Qed.

Lemma InstanceType_first_match_witness :
  run cloud (InstanceType "node-a") fleet = (Returned ("2gb", None), fleet, [list_all])
  /\ run cloud (InstanceType "NODE-A") fleet =
       (Returned ("", Some cloudprovider.InstanceNotFound), fleet, [list_all]).
Proof.
  split.
  - apply (proj1 (@InstanceType_first_match Cloud cloud fleet fleet "node-a"
                    (cloud_droplets fleet) {| godo.StatusCode := 200 |}
                    eq_refl eq_refl)
             [node_c; node_b] node_a [node_a']).
    + reflexivity.
    + repeat constructor; simpl; discriminate.
    + reflexivity.
  - apply (proj2 (@InstanceType_first_match Cloud cloud fleet fleet "NODE-A"
                    (cloud_droplets fleet) {| godo.StatusCode := 200 |}
                    eq_refl eq_refl)).
    repeat constructor; simpl; discriminate.
Defined.

(** X20. An id that InstanceID returns without error is never empty: the
    client listed droplets with status 200 and no error in the one call
    made, and the id is the decimal numeral, an optional minus sign followed
    by digits, of the id of the first listed droplet bearing the node
    name. *)
Theorem InstanceID_result_decimal
  (W : Type) (h : Handler W) (w w' : W) (nodeName : types.NodeName)
  (id : string) (t : list Request) :
  run h (InstanceID nodeName) w = (Returned (id, None), w', t) ->
  id <> ""
  /\ integer_syntax id = true
  /\ exists droplets resp before d after,
       h list_all w = ((droplets, Some resp, None), w')
       /\ godo.StatusCode resp = http.StatusOK
       /\ droplets = before ++ d :: after
       /\ Forall (fun x => godo.Name x <> nodeName) before
       /\ godo.Name d = nodeName
       /\ id = strconv.Itoa (godo.ID d)
       /\ integer_value id = godo.ID d
       /\ t = [list_all].
Proof.
  intros Hrun. rewrite InstanceID_run in Hrun.
  destruct (run h (dropletByName context.TODO nodeName) w)
    as [[[[[d |] [e |]] | msg] w1] t1] eqn:Hlookup; try discriminate.
  inversion Hrun. subst.
  destruct (Itoa_decimal (godo.ID d)) as [Hsyn Hval].
  destruct (dropletByName_inv h w nodeName Hlookup)
    as [_ [droplets [resp [before [after [Hlist [Hstatus [Hsplit [Hbefore [Hname Ht]]]]]]]]]].
  split; [| split; [exact Hsyn |]].
  - intros Hempty. rewrite Hempty in Hsyn. discriminate.
  - exists droplets, resp, before, d, after. repeat split; assumption || reflexivity.
Qed.

Lemma InstanceID_result_decimal_witness :
  "43" <> ""
  /\ integer_syntax "43" = true
  /\ exists droplets resp before d after,
       cloud list_all fleet = ((droplets, Some resp, None), fleet)
       /\ godo.StatusCode resp = http.StatusOK
       /\ droplets = before ++ d :: after
       /\ Forall (fun x => godo.Name x <> "node-b") before
       /\ godo.Name d = "node-b"
       /\ "43" = strconv.Itoa (godo.ID d)
       /\ integer_value "43" = godo.ID d
       /\ [list_all] = [list_all].
Proof.
  apply (@InstanceID_result_decimal Cloud cloud fleet fleet "node-b" "43" [list_all]).
  reflexivity.
Defined.

(** X21. The id InstanceID returns can be handed to the operations by
    provider id: for the first listed droplet of the node name, whose id is
    an int, the returned string converts back, so that
    InstanceTypeByProviderID asks the client for that very id, and, when the
    client answers 200 with the same droplet, returns the type InstanceType
    returns for the name. *)
Theorem by_name_then_by_id
  (W : Type) (h : Handler W) (w w1 w2 : W) (nodeName : types.NodeName)
  (droplets before after : list godo.Droplet) (d : godo.Droplet)
  (resp resp' : godo.Response) :
  h list_all w = ((droplets, Some resp, None), w1) ->
  godo.StatusCode resp = http.StatusOK ->
  droplets = before ++ d :: after ->
  Forall (fun x => godo.Name x <> nodeName) before ->
  godo.Name d = nodeName ->
  minInt <= godo.ID d <= maxInt ->
  h (Droplets_Get context.TODO (godo.ID d)) w1 = ((Some d, Some resp', None), w2) ->
  godo.StatusCode resp' = http.StatusOK ->
  exists id,
    run h (InstanceID nodeName) w = (Returned (id, None), w1, [list_all])
    /\ strconv.Atoi id = (godo.ID d, None)
    /\ run h (InstanceTypeByProviderID id) w1 =
         (Returned (godo.SizeSlug d, None), w2, [Droplets_Get context.TODO (godo.ID d)])
    /\ run h (InstanceType nodeName) w =
         (Returned (godo.SizeSlug d, None), w1, [list_all]).
Proof.
  unfold list_all.
  intros Hlist Hstatus Hsplit Hbefore Hname Hint Hget Hstatus'.
  exists (strconv.Itoa (godo.ID d)).
  rewrite InstanceID_run, InstanceType_run, InstanceTypeByProviderID_run.
  rewrite (dropletByName_listed h w nodeName Hlist Hstatus).
  rewrite Hsplit, (@range_droplets_first before after d nodeName Hbefore Hname).
  rewrite (@dropletById_of_Itoa W h w1 w2 context.TODO d (Some d) resp' Hint Hget Hstatus').
  repeat split. apply Atoi_Itoa. exact Hint.
Qed.

Lemma by_name_then_by_id_witness :
  exists id,
    run cloud (InstanceID "node-a") fleet = (Returned (id, None), fleet, [list_all])
    /\ strconv.Atoi id = (42, None)
    /\ run cloud (InstanceTypeByProviderID id) fleet =
         (Returned ("2gb", None), fleet, [Droplets_Get context.TODO 42])
    /\ run cloud (InstanceType "node-a") fleet =
         (Returned ("2gb", None), fleet, [list_all]).
Proof.
  apply (@by_name_then_by_id Cloud cloud fleet fleet fleet "node-a"
           (cloud_droplets fleet) [node_c; node_b] [node_a'] node_a
           {| godo.StatusCode := 200 |} {| godo.StatusCode := 200 |}).
  - reflexivity.
  - reflexivity.
  - reflexivity.
  - repeat constructor; simpl; discriminate.
  - reflexivity.
  - unfold minInt, maxInt. simpl. lia.
  - reflexivity.
  - reflexivity.
Defined.

(** X22. Under every behaviour of the client, InstanceID, ExternalID and
    InstanceType make exactly one call, the List of all droplets with empty
    options, and leave the world as that call left it: they never call
    Droplets.Get nor the metadata endpoint. *)
Theorem by_name_exactly_one_call
  (W : Type) (h : Handler W) (w : W) (name : types.NodeName) :
  (snd (run h (InstanceID name) w) = [list_all]
   /\ snd (fst (run h (InstanceID name) w)) = snd (h list_all w))
  /\ (snd (run h (ExternalID name) w) = [list_all]
      /\ snd (fst (run h (ExternalID name) w)) = snd (h list_all w))
  /\ (snd (run h (InstanceType name) w) = [list_all]
      /\ snd (fst (run h (InstanceType name) w)) = snd (h list_all w)).
Proof.
  assert (Hlookup : snd (run h (dropletByName context.TODO name) w) = [list_all]
                    /\ snd (fst (run h (dropletByName context.TODO name) w))
                       = snd (h list_all w)).
  { unfold dropletByName, list_all. simpl.
    destruct (h (Droplets_List context.TODO {| godo.Page := 0; godo.PerPage := 0 |}) w)
      as [[[droplets resp] [e |]] w1]; simpl; [auto |].
    destruct resp as [resp |]; simpl; [| auto].
    destruct (negb (godo.StatusCode resp =? http.StatusOK)); simpl; [auto |].
    destruct (range_droplets droplets name); auto. }
  unfold ExternalID. rewrite InstanceID_run, InstanceType_run.
  destruct (run h (dropletByName context.TODO name) w)
    as [[[[[d |] [e |]] | msg] w1] t1]; simpl in *; auto.
Qed.

(** X23. dropletByName does not check the response pointer: when the
    client's List returns neither an error nor a response, InstanceID,
    ExternalID and InstanceType stop with the runtime panic of a nil pointer
    after this single call, whatever was listed. *)
Theorem by_name_nil_response_panics
  (W : Type) (h : Handler W) (w w' : W) (name : types.NodeName)
  (droplets : list godo.Droplet) :
  h list_all w = ((droplets, None, None), w') ->
  exists msg,
    run h (InstanceID name) w = (Panicked msg, w', [list_all])
    /\ run h (ExternalID name) w = (Panicked msg, w', [list_all])
    /\ run h (InstanceType name) w = (Panicked msg, w', [list_all]).
Proof.
  unfold list_all. intros Hlist.
  unfold ExternalID, InstanceID, InstanceType, dropletByName. simpl.
  rewrite Hlist. simpl. eexists. repeat split.
Qed.

Lemma by_name_nil_response_panics_witness :
  exists msg,
    run scripted (InstanceID "node-a") no_response = (Panicked msg, no_response, [list_all])
    /\ run scripted (ExternalID "node-a") no_response =
         (Panicked msg, no_response, [list_all])
    /\ run scripted (InstanceType "node-a") no_response =
         (Panicked msg, no_response, [list_all]).
Proof.
  apply (@by_name_nil_response_panics Script scripted no_response no_response
           "node-a" [node_a]).
  reflexivity.
Defined.

(** *** Order of the checks and of the calls *)

(** X24. NodeAddressesByProviderID checks the private address before the
    public one: for a droplet its lookup returned, an empty or failing
    private IPv4 gives the error about the private ip, whatever the public
    one; the error about the public ip is given only when the private IPv4
    is there and the public one is empty or failing.  Each error carries
    what the accessor returned as its error, nil included. *)
Theorem NodeAddressesByProviderID_private_checked_first
  (W : Type) (h : Handler W) (w w' : W) (t : list Request)
  (providerId : string) (d : godo.Droplet) :
  run h (dropletById context.TODO providerId) w = (Returned (Some d, None), w', t) ->
  (fst (godo.PrivateIPv4 d) = "" ->
   run h (NodeAddressesByProviderID providerId) w =
     (Returned ([], Some (fmt.Errorf "could not get private ip: %v"
                            [err_operand (snd (godo.PrivateIPv4 d))])),
      w', t))
  /\
  (fst (godo.PrivateIPv4 d) <> "" ->
   fst (godo.PublicIPv4 d) = "" ->
   run h (NodeAddressesByProviderID providerId) w =
     (Returned ([], Some (fmt.Errorf "could not get public ip: %v"
                            [err_operand (snd (godo.PublicIPv4 d))])),
      w', t)).
Proof.
  intros Hlookup.
  rewrite NodeAddressesByProviderID_run, Hlookup. unfold addresses_of.
  pose proof (PrivateIPv4_error d) as Epriv.
  destruct (godo.PrivateIPv4 d) as [privateIP [e |]]; simpl in *.
  - split; [reflexivity |].
    intros Hpriv. exfalso. apply Hpriv. apply (Epriv e). reflexivity.
  - split.
    + intros Hpriv. subst privateIP. reflexivity.
    + intros Hpriv Hpub. rewrite (eqb_empty_false Hpriv).
      destruct (godo.PublicIPv4 d) as [publicIP [e |]]; simpl in *.
      * reflexivity.
      * subst publicIP. reflexivity.
Qed.

(** The droplet without network information fails on its private ip, with
    the accessor's error; the droplet with a private interface only fails on
    its public ip, with no cause. *)
Lemma NodeAddressesByProviderID_private_checked_first_witness :
  run cloud (NodeAddressesByProviderID "44") fleet =
    (Returned ([], Some (fmt.Errorf "could not get private ip: %v"
                           [err_operand (Some godo.errNoNetworks)])),
     fleet, [Droplets_Get context.TODO 44])
  /\ run cloud (NodeAddressesByProviderID "43") fleet =
       (Returned ([], Some (fmt.Errorf "could not get public ip: %v"
                              [err_operand None])),
        fleet, [Droplets_Get context.TODO 43]).
Proof.
  split.
  - apply (proj1 (@NodeAddressesByProviderID_private_checked_first
                    Cloud cloud fleet fleet [Droplets_Get context.TODO 44] "44" node_c
                    eq_refl)).
    reflexivity.
  - apply (proj2 (@NodeAddressesByProviderID_private_checked_first
                    Cloud cloud fleet fleet [Droplets_Get context.TODO 43] "43" node_b
                    eq_refl)).
    + simpl. discriminate.
    + reflexivity.
Defined.

Lemma httpGet_calls (W : Type) (h : Handler W) (w : W) (url : string) :
  hd_error (snd (run h (httpGet url) w)) = Some (http_Get url)
  /\ Forall (fun r => is_body_call r = true) (tl (snd (run h (httpGet url) w))).
Proof.
  unfold httpGet. simpl.
  destruct (h (http_Get url) w) as [[resp [e |]] w1]; simpl;
    [split; [reflexivity | constructor] |].
  destruct resp as [resp |]; simpl; [| split; [reflexivity | constructor]].
  destruct (negb (http.StatusCode resp =? http.StatusOK)); simpl.
  - destruct (h (Body_Close (http.Body resp)) w1) as [closed w2].
    split; [reflexivity | repeat constructor].
  - destruct (h (ioutil_ReadAll (http.Body resp)) w1) as [[bodyBytes [e |]] w2];
      simpl;
      destruct (h (Body_Close (http.Body resp)) w2) as [closed w3];
      (split; [reflexivity | repeat constructor]).
Qed.

Lemma NodeAddressesByProviderID_calls
  (W : Type) (h : Handler W) (w : W) (providerId : string) :
  snd (run h (NodeAddressesByProviderID providerId) w) =
    match strconv.Atoi providerId with
    | (intId, None) => [Droplets_Get context.TODO intId]
    | (_, Some _) => []
    end.
Proof.
  rewrite NodeAddressesByProviderID_run.
  assert (Hlookup : snd (run h (dropletById context.TODO providerId) w) =
                    match strconv.Atoi providerId with
                    | (intId, None) => [Droplets_Get context.TODO intId]
                    | (_, Some _) => []
                    end).
  { unfold dropletById.
    destruct (strconv.Atoi providerId) as [intId [e |]]; simpl; [reflexivity |].
    destruct (h (Droplets_Get context.TODO intId) w) as [[[droplet resp] [e |]] w1];
      simpl; [reflexivity |].
    destruct resp as [resp |]; simpl; [| reflexivity].
    destruct (negb (godo.StatusCode resp =? http.StatusOK)); reflexivity. }
  destruct (run h (dropletById context.TODO providerId) w)
    as [[[[[d |] [e |]] | msg] w1] t1]; simpl in *; exact Hlookup.
Qed.

(** X25. Under every behaviour of the metadata endpoint and of the client,
    the calls of NodeAddresses are exactly those of the fetch of the
    instance's own id (the GET of the metadata url first, then nothing but
    reads and closes of a body), followed, when the fetch returned an id
    without error and the id converts, by one Droplets.Get for the
    converted id, and by nothing otherwise: the client is never asked
    before the fetch is over, and never for a list. *)
Theorem NodeAddresses_call_order
  (W : Type) (h : Handler W) (w : W) (name : types.NodeName) :
  hd_error (snd (run h dropletID w)) = Some (http_Get dropletIDMetadataURL)
  /\ Forall (fun r => is_body_call r = true) (tl (snd (run h dropletID w)))
  /\ snd (run h (NodeAddresses name) w) =
       snd (run h dropletID w) ++
       match fst (fst (run h dropletID w)) with
       | Returned (selfDropletID, None) =>
           match strconv.Atoi selfDropletID with
           | (intId, None) => [Droplets_Get context.TODO intId]
           | (_, Some _) => []
           end
       | _ => []
       end.
Proof.
  destruct (httpGet_calls h w dropletIDMetadataURL) as [Hfirst Hbody].
  split; [exact Hfirst |]. split; [exact Hbody |].
  rewrite NodeAddresses_run.
  destruct (run h dropletID w) as [[[[selfDropletID [e |]] | msg] w1] t1]; simpl.
  - rewrite app_nil_r. reflexivity.
  - pose proof (NodeAddressesByProviderID_calls h w1 selfDropletID) as Hlookup.
    destruct (run h (NodeAddressesByProviderID selfDropletID) w1) as [[o w2] t2].
    simpl in *. rewrite Hlookup. reflexivity.
  - rewrite app_nil_r. reflexivity.
Qed.
